(** * aurelia-kendoui-bridge: the widget-base helper and its adapters

    A shallow embedding of [WidgetBase] (common/widget-base) and of the
    adapters built around it ([TreeMap], [Tooltip], [Calendar],
    [AuToolbar]).  JavaScript objects live in a store addressed by
    location; a computation threads the store, the micro-task queue and a
    trace of the calls that cross the boundary to the native toolkit and
    the DOM, and either returns or throws. *)

From stdpp Require Import gmap strings list fin_maps pretty.
From Stdlib Require Import ZArith Ascii String.

Open Scope string_scope.
Open Scope list_scope.
Set Warnings "-register-all".

(** ** Values and the object store *)

Abbreviation loc := nat.

Inductive value : Type :=
  | VUndefined
  | VNull
  | VBool (b : bool)
  | VNum (n : Z)
  | VStr (s : string)
  | VObj (r : loc)
  | VArr (items : list value)
  | VProxy (element : value) (event : string).
(* [VProxy element event] is the closure built in getEventOptions:
   e => taskQueue.queueMicroTask(() => fireKendoEvent(element, _hyphenate(event), e)) *)

Abbreviation object := (gmap string value).

(** ToBoolean: what [if (x)] and [!x] test. *)
Definition truthy (v : value) : bool :=
  match v with
  | VUndefined | VNull => false
  | VBool b => b
  | VNum n => negb (n =? 0)%Z
  | VStr s => negb (String.eqb s "")
  | VObj _ | VArr _ | VProxy _ _ => true
  end.

Definition nullish (v : value) : bool :=
  match v with
  | VUndefined | VNull => true
  | _ => false
  end.

(** What a store cell is: a plain object, a DOM element (with the names of
    its attributes) or a native widget created by the toolkit. *)
Inductive kind : Type :=
  | Plain
  | Element (attributes : list string)
  | Widget (control : string).

Record cell : Type := Cell { cell_kind : kind; cell_props : object }.

(** Closures put on the micro-task queue. *)
Inductive task : Type :=
  | BindingUpdate (target : loc) (property : string) (v : value)
  | FireKendoEvent (element : value) (event : string) (e : value).
(* [BindingUpdate] stands for an update the binding system has pending;
   [FireKendoEvent element event e] is the closure
   () => fireKendoEvent(element, _hyphenate(event), e). *)

(** Calls that leave the adapter layer, in the order they happen.  A DOM
    event is dispatched synchronously to its listeners, which are free to
    read the view models: [store] is the store as they find it. *)
Inductive effect : Type :=
  | CallCreateWidget
  | CallHandlePropertyChanged (widget : value) (property : string)
                              (newValue oldValue : value)
  | KendoInit (control : string) (element : value) (options : object)
  | KendoDestroy (widget : loc)
  | KendoEnable (widget : loc) (v : value)
  | DomEvent (element : value) (name : string) (detail : value)
             (store : list cell).

Record world : Type := World {
  heap : list cell;
  taskQueue : list task;
  trace : list effect
}.

Inductive error : Type :=
  | Error (message : string)
  | TypeError.

Inductive result (A : Type) : Type :=
  | Ok (a : A)
  | Throw (e : error).
Arguments Ok {A} a.
Arguments Throw {A} e.

(** A computation: runs in a world, returns or throws, and leaves a world
    behind either way (a throw undoes nothing). *)
Definition M (A : Type) : Type := world -> result A * world.

#[global] Instance M_ret : MRet M := fun A a w => (Ok a, w).
#[global] Instance M_bind : MBind M := fun A B k m w =>
  match m w with
  | (Ok a, w') => k a w'
  | (Throw e, w') => (Throw e, w')
  end.

Definition throw {A : Type} (e : error) : M A := fun w => (Throw e, w).

Definition emit (e : effect) : M unit := fun w =>
  (Ok tt, World (heap w) (taskQueue w) (trace w ++ [e])).

(** taskQueue.queueMicroTask(task): first in, first out. *)
Definition queueMicroTask (t : task) : M unit := fun w =>
  (Ok tt, World (heap w) (taskQueue w ++ [t]) (trace w)).

Definition alloc (c : cell) : M loc := fun w =>
  (Ok (List.length (heap w)), World (heap w ++ [c]) (taskQueue w) (trace w)).

Definition props_at (h : list cell) (r : loc) : object :=
  match h !! r with
  | Some c => cell_props c
  | None => ∅
  end.

Definition update_props (f : object -> object) (r : loc) (h : list cell) : list cell :=
  match h !! r with
  | Some c => <[r := Cell (cell_kind c) (f (cell_props c))]> h
  | None => h
  end.

(** [v[key] = x] in strict-mode code (every module of the source is one):
    writing through undefined or null throws, and so does creating a
    property on a boolean, a number or a string.  Arrays and closures are
    immutable values here, with no cell of their own: a write to one
    returns and is not recorded. *)
Definition set_prop (v : value) (key : string) (x : value) : M unit := fun w =>
  match v with
  | VUndefined | VNull | VBool _ | VNum _ | VStr _ => (Throw TypeError, w)
  | VObj r => (Ok tt, World (update_props (insert key x) r (heap w)) (taskQueue w) (trace w))
  | VArr _ | VProxy _ _ => (Ok tt, w)
  end.

(** Index keys of an array-like source: "0", "1", ... *)
Definition index_props (items : list value) : object :=
  list_to_map (imap (fun i x => (pretty i, x)) items).

(** Own enumerable properties of an Object.assign source: undefined and
    null are skipped, booleans, numbers and functions have none, a string
    or an array contributes its index keys. *)
Definition own_props (h : list cell) (v : value) : object :=
  match v with
  | VObj r => props_at h r
  | VArr items => index_props items
  | VStr s => index_props ((fun c => VStr (String c "")) <$> list_ascii_of_string s)
  | _ => ∅
  end.

(** [v[key]] on a value that is not undefined or null: a missing property
    reads as undefined.  (The length of a string or an array is not
    modelled.) *)
Definition read_prop (h : list cell) (v : value) (key : string) : value :=
  default VUndefined (own_props h v !! key).

(** [v[key]]: reading through undefined or null throws. *)
Definition get_prop (v : value) (key : string) : M value := fun w =>
  if nullish v then (Throw TypeError, w) else (Ok (read_prop (heap w) v key), w).

(** Object.assign on maps: each source in turn overwrites the target. *)
Definition assign (target : object) (sources : list object) : object :=
  foldl (fun acc src => src ∪ acc) target sources.

(** Object.assign(target, ...sources) on a target in the store. *)
Definition Object_assign (target : loc) (sources : list object) : M unit := fun w =>
  (Ok tt, World (update_props (fun o => assign o sources) target (heap w))
                (taskQueue w) (trace w)).

(** Object.keys *)
Definition Object_keys (o : object) : list string := (map_to_list o).*1.

(** ** Helpers imported by widget-base that are not part of this source tree *)

(** The ./util module.  [getBindablePropertyName] maps a native option
    name to the name of the view-model property bound to it;
    [getEventsFromAttributes] reads the native event names off the
    attribute names of the host element.  Both are kept abstract. *)
Class Util : Type := {
  getBindablePropertyName : string -> string;
  getEventsFromAttributes_names : list string -> list string
}.

(** Modelled from the spec: pruneOptions (./options) is not in the source
    tree; the bindable values are "pruned of undefined/null" before the
    merge, every other entry is kept. *)
Definition pruneOptions (options : object) : object :=
  filter (fun kv => nullish kv.2 = false) options.

Definition is_upper (c : ascii) : bool :=
  (65 <=? nat_of_ascii c)%nat && (nat_of_ascii c <=? 90)%nat.

Definition to_lower (c : ascii) : ascii :=
  if is_upper c then ascii_of_nat (nat_of_ascii c + 32) else c.

Fixpoint hyphenate_tail (s : string) : string :=
  match s with
  | EmptyString => EmptyString
  | String c rest =>
      if is_upper c
      then String "-" (String (to_lower c) (hyphenate_tail rest))
      else String c (hyphenate_tail rest)
  end.

(** Modelled from the spec: _hyphenate (./util) is not in the source tree;
    the DOM event name is the hyphenated form of the native event name,
    "data-bound" for "dataBound": a leading capital is lowered, every other
    capital becomes a hyphen and its lower-case letter. *)
Definition _hyphenate (name : string) : string :=
  match name with
  | EmptyString => EmptyString
  | String c rest => String (to_lower c) (hyphenate_tail rest)
  end.

(** Modelled from the spec: fireKendoEvent (./events) is not in the source
    tree; it dispatches one DOM event of the given name, carrying the
    native event, on the host element.  The dispatch is synchronous: the
    listeners run in the store of that moment. *)
Definition fireKendoEvent (element : value) (name : string) (e : value) : M unit :=
  fun w => emit (DomEvent element name e (heap w)) w.

(** The attribute names of a DOM element. *)
Definition attributes_of (h : list cell) (el : value) : option (list string) :=
  match el with
  | VObj r =>
      match h !! r with
      | Some (Cell (Element attributes) _) => Some attributes
      | _ => None
      end
  | _ => None
  end.

(** getEventsFromAttributes(element): anything but a DOM element has no
    attributes to iterate and the call throws. *)
Definition getEventsFromAttributes `{Util} (el : value) : M (list string) := fun w =>
  match attributes_of (heap w) el with
  | Some attributes => (Ok (getEventsFromAttributes_names attributes), w)
  | None => (Throw TypeError, w)
  end.

(** ** WidgetBase (common/widget-base) *)

(** jQuery.fn[controlName].widget.prototype: the option defaults and the
    event vocabulary of a registered control. *)
Record widget_prototype : Type := WidgetPrototype {
  proto_options : object;
  proto_events : list string
}.

(** The fields control() and linkViewModel() set; each is undefined on a
    fresh instance. *)
Record WidgetBase : Type := mkWidgetBase {
  controlName : option string;
  kendoOptions : option object;
  kendoEvents : option (list string);
  viewModel : value
}.

Definition new_WidgetBase : WidgetBase := mkWidgetBase None None None VUndefined.

Definition lift {A : Type} (r : result A) : M A := fun w => (r, w).

(** control(controlName), against the registry jQuery.fn.  [jQuery_fn]
    holds the Kendo controls registered with jQuery, each with the
    prototype of its widget.  The other members of jQuery.fn (plain
    plug-ins, inherited methods), for which the code passes the guard and
    then fails on ctor.widget.prototype, are outside it: the model covers
    control names and names that jQuery.fn does not have. *)
Definition control (jQuery_fn : gmap string widget_prototype) (name : string)
    (this : WidgetBase) : result WidgetBase :=
  match (if String.eqb name "" then None else jQuery_fn !! name) with
  | None => Throw (Error ("The name of control " +:+ name +:+ " is invalid or not set"))
  | Some ctor =>
      Ok (mkWidgetBase (Some name) (Some (proto_options ctor))
                       (Some (proto_events ctor)) (viewModel this))
  end.

Definition linkViewModel (vm : value) (this : WidgetBase) : result WidgetBase :=
  if negb (truthy vm) then Throw (Error "viewModel is not set")
  else Ok (mkWidgetBase (controlName this) (kendoOptions this) (kendoEvents this) vm).

(** Options passed to createWidget; a hook that is not given is [None]. *)
Record create_options : Type := CreateOptions {
  element : value;
  parentCtx : value;
  beforeInitialize : option (value -> M unit);
  afterInitialize : option (M unit)
}.

Section WithUtil.
Context `{U : Util}.

(** getOptionsFromBindables: one entry per native option, read off the
    view model (a missing property reads as undefined), then dataSource
    from kDataSource when that is truthy. *)
Definition getOptionsFromBindables (this : WidgetBase) : M object := fun w =>
  match kendoOptions this with
  | None => (Throw TypeError, w)            (* Object.keys(undefined) *)
  | Some props =>
      if nullish (viewModel this) then (Throw TypeError, w)
      else
        let read key := read_prop (heap w) (viewModel this) key in
        let options :=
          foldl (fun options prop => <[prop := read (getBindablePropertyName prop)]> options)
                ∅ (Object_keys props) in
        let kDataSource := read "kDataSource" in
        (Ok (if truthy kDataSource then <["dataSource" := kDataSource]> options else options), w)
  end.

(** setDefaultBindableValues: every bindable gets the control's default. *)
Definition setDefaultBindableValues (this : WidgetBase) : M WidgetBase :=
  if negb (truthy (viewModel this)) then throw (Error "viewModel is not set")
  else match kendoOptions this with
       | None => throw TypeError
       | Some props =>
           foldr (fun kv rest =>
                    set_prop (viewModel this) (getBindablePropertyName kv.1) kv.2;; rest)
                 (mret this) (map_to_list props)
       end.

(** The body of events.forEach in getEventOptions, over the events still
    to visit and the options object built so far. *)
Fixpoint register_events (this : WidgetBase) (el : value) (events : list string)
    (options : object) : result object :=
  match events with
  | [] => Ok options
  | event :: rest =>
      match kendoEvents this with
      | None => Throw TypeError           (* undefined.includes *)
      | Some allowedEvents =>
          if bool_decide (event ∈ allowedEvents)
          then register_events this el rest (<[event := VProxy el event]> options)
          else Throw (Error (event +:+ " is not an event on the "
                               +:+ default "undefined" (controlName this) +:+ " control"))
      end
  end.

Definition getEventOptions (this : WidgetBase) (el : value) : M object :=
  events ← getEventsFromAttributes el;
  lift (register_events this el events ∅).

(** _getOptions: merges, into a fresh object, the options on the wrapper,
    the pruned bindables and the event handlers, in that order. *)
Definition _getOptions (this : WidgetBase) (el : value) : M loc :=
  options ← getOptionsFromBindables this;
  eventOptions ← getEventOptions this el;
  target ← alloc (Cell Plain ∅);
  literal ← get_prop (viewModel this) "options";
  sources ← (fun w => (Ok [own_props (heap w) literal; pruneOptions options; eventOptions], w));
  Object_assign target sources;;
  mret target.

(** jQuery(element)[controlName](allOptions).data(controlName): the native
    constructor is opaque; the model records the call with the options it
    was handed and returns a new widget. *)
Definition kendo_init (name : option string) (el : value) (allOptions : loc) : M value :=
  match name with
  | None => throw TypeError
  | Some control =>
      opts ← (fun w => (Ok (props_at (heap w) allOptions), w));
      emit (KendoInit control el opts);;
      widget ← alloc (Cell (Widget control) ∅);
      mret (VObj widget)
  end.

Definition call_hook {A : Type} (hook : option A) (run : A -> M unit) : M unit :=
  match hook with
  | Some f => run f
  | None => mret tt
  end.

(** createWidget(options): the three guards, the merged options, the
    beforeInitialize hook, the _$parent entry (in an array), the native
    constructor, the back-reference on the widget, the afterInitialize
    hook.  A missing argument is [None].  The trace first records that the
    helper was entered, so that calls to it can be counted. *)
Definition createWidget (this : WidgetBase) (options : option create_options) : M value :=
  emit CallCreateWidget;;
  match options with
  | None => throw (Error "the createWidget() function needs to be called with an object")
  | Some o =>
      if negb (truthy (element o)) then throw (Error "element is not set")
      else if negb (truthy (parentCtx o)) then throw (Error "parentCtx is not set")
      else
        allOptions ← _getOptions this (element o);
        call_hook (beforeInitialize o) (fun f => f (VObj allOptions));;
        Object_assign allOptions [ {[ "_$parent" := VArr [parentCtx o] ]} ];;
        widget ← kendo_init (controlName this) (element o) allOptions;
        set_prop widget "_$parent" (parentCtx o);;
        call_hook (afterInitialize o) (fun f => f);;
        mret widget
  end.

(** widget.destroy(): only a native widget has the method. *)
Definition call_destroy (widget : value) : M unit := fun w =>
  match widget with
  | VObj r =>
      match heap w !! r with
      | Some (Cell (Widget _) _) => emit (KendoDestroy r) w
      | _ => (Throw TypeError, w)
      end
  | _ => (Throw TypeError, w)
  end.

Definition destroy (this : WidgetBase) (widget : value) : M unit :=
  call_destroy widget.

(** Modelled from the spec: handlePropertyChanged, which Calendar calls,
    is not in the widget-base of the source tree; on a property change the
    helper either pushes the value into the live widget or rebuilds it.
    The model records the one request. *)
Definition handlePropertyChanged (this : WidgetBase) (widget : value)
    (property : string) (newValue oldValue : value) : M unit :=
  emit (CallHandlePropertyChanged widget property newValue oldValue).

End WithUtil.

(** ** The task queue and the event proxies *)

(** The native widget calling a handler it was given with event [e]. *)
Definition invoke (handler : value) (e : value) : M unit :=
  match handler with
  | VProxy el event => queueMicroTask (FireKendoEvent el event e)
  | _ => throw TypeError
  end.

Definition run_task (t : task) : M unit :=
  match t with
  | BindingUpdate target property v => set_prop (VObj target) property v
  | FireKendoEvent el event e => fireKendoEvent el (_hyphenate event) e
  end.

Fixpoint run_tasks (ts : list task) : M unit :=
  match ts with
  | [] => mret tt
  | t :: rest => run_task t;; run_tasks rest
  end.

(** The queue is emptied in the order the tasks were queued. *)
Definition flushMicroTaskQueue : M unit := fun w =>
  run_tasks (taskQueue w) (World (heap w) [] (trace w)).

(** ** The adapters

    An adapter instance is its view-model object in the store ([this]);
    the helper it was handed is passed along as [widgetBase].  Stock
    (chart/stock.js) extends an earlier WidgetBase whose _initialize is
    not in the source tree and is left out. *)

Module TreeMap.
Section Methods.
Context `{U : Util}.

(** The injected helper comes as [helper], the object itself as a value
    (what the chained calls return and this.widgetBase keeps), and
    [widgetBase], the state of that object. *)
Definition constructor (jQuery_fn : gmap string widget_prototype) (el : value)
    (helper : value) (widgetBase : WidgetBase) : M (loc * WidgetBase) :=
  this ← alloc (Cell Plain ∅);
  options ← alloc (Cell Plain ∅);
  set_prop (VObj this) "options" (VObj options);;
  set_prop (VObj this) "element" el;;
  wb1 ← lift (control jQuery_fn "kendoTreeMap" widgetBase);
  wb2 ← lift (linkViewModel (VObj this) wb1);
  wb3 ← setDefaultBindableValues wb2;
  set_prop (VObj this) "widgetBase" helper;;
  mret (this, wb3).

Definition bind (this : loc) (ctx : value) : M unit :=
  set_prop (VObj this) "$parent" ctx.

Definition recreate (widgetBase : WidgetBase) (this : loc) : M unit :=
  el ← get_prop (VObj this) "element";
  parent ← get_prop (VObj this) "$parent";
  kWidget ← createWidget widgetBase (Some (CreateOptions el parent None None));
  set_prop (VObj this) "kWidget" kWidget.

Definition attached (widgetBase : WidgetBase) (this : loc) : M unit :=
  recreate widgetBase this.

Definition detached (widgetBase : WidgetBase) (this : loc) : M unit :=
  kWidget ← get_prop (VObj this) "kWidget";
  destroy widgetBase kWidget.

End Methods.
End TreeMap.

Module Tooltip.
Section Methods.
Context `{U : Util}.

(** [helper] and [widgetBase]: the injected helper as a value and its
    state, as for TreeMap. *)
Definition constructor (jQuery_fn : gmap string widget_prototype) (el : value)
    (helper : value) (widgetBase : WidgetBase) : M (loc * WidgetBase) :=
  this ← alloc (Cell Plain ∅);
  set_prop (VObj this) "element" el;;
  wb1 ← lift (control jQuery_fn "kendoTooltip" widgetBase);
  wb2 ← lift (linkViewModel (VObj this) wb1);
  set_prop (VObj this) "widgetBase" helper;;
  mret (this, wb2).

Definition bind (this : loc) (ctx : value) : M unit :=
  set_prop (VObj this) "$parent" ctx.

Definition recreate (widgetBase : WidgetBase) (this : loc) : M unit :=
  el ← get_prop (VObj this) "element";
  parent ← get_prop (VObj this) "$parent";
  kWidget ← createWidget widgetBase (Some (CreateOptions el parent None None));
  set_prop (VObj this) "kWidget" kWidget.

Definition attached (widgetBase : WidgetBase) (this : loc) : M unit :=
  recreate widgetBase this.

Definition detached (widgetBase : WidgetBase) (this : loc) : M unit :=
  kWidget ← get_prop (VObj this) "kWidget";
  destroy widgetBase kWidget.

End Methods.
End Tooltip.

Module Calendar.
Section Methods.
Context `{U : Util}.

Definition bind (this : loc) (ctx : value) : M unit :=
  set_prop (VObj this) "$parent" ctx.

Definition recreate (widgetBase : WidgetBase) (this : loc) : M unit :=
  el ← get_prop (VObj this) "element";
  parent ← get_prop (VObj this) "$parent";
  kWidget ← createWidget widgetBase (Some (CreateOptions el parent None None));
  set_prop (VObj this) "kWidget" kWidget.

Definition attached (widgetBase : WidgetBase) (this : loc) : M unit :=
  recreate widgetBase this.

Definition propertyChanged (widgetBase : WidgetBase) (this : loc)
    (property : string) (newValue oldValue : value) : M unit :=
  kWidget ← get_prop (VObj this) "kWidget";
  handlePropertyChanged widgetBase kWidget property newValue oldValue.

Definition detached (widgetBase : WidgetBase) (this : loc) : M unit :=
  kWidget ← get_prop (VObj this) "kWidget";
  destroy widgetBase kWidget.

End Methods.
End Calendar.

Module AuToolbar.

Definition constructor (el : value) : M loc :=
  this ← alloc (Cell Plain ∅);
  set_prop (VObj this) "element" el;;
  options ← alloc (Cell Plain ∅);
  set_prop (VObj this) "options" (VObj options);;
  mret this.

Definition attached (this : loc) : M unit := mret tt.

Definition detached (this : loc) : M unit :=
  _component ← get_prop (VObj this) "_component";
  if truthy _component then call_destroy _component else mret tt.

Definition getOptions (this : loc) : M loc :=
  target ← alloc (Cell Plain ∅);
  literal ← get_prop (VObj this) "options";
  sources ← (fun w => (Ok [own_props (heap w) literal; pruneOptions ∅], w));
  Object_assign target sources;;
  mret target.

(** _component.enable(newValue): only a native widget has the method. *)
Definition call_enable (widget : value) (v : value) : M unit := fun w =>
  match widget with
  | VObj r =>
      match heap w !! r with
      | Some (Cell (Widget _) _) => emit (KendoEnable r v) w
      | _ => (Throw TypeError, w)
      end
  | _ => (Throw TypeError, w)
  end.

Definition enableChanged (this : loc) (newValue : value) : M unit :=
  _component ← get_prop (VObj this) "_component";
  if truthy _component then call_enable _component newValue else mret tt.

End AuToolbar.

(** ** Every adapter, through its lifecycle hooks *)

Inductive adapter : Type :=
  | TreeMapAdapter (widgetBase : WidgetBase)
  | TooltipAdapter (widgetBase : WidgetBase)
  | CalendarAdapter (widgetBase : WidgetBase)
  | AuToolbarAdapter.

Section Lifecycle.
Context `{U : Util}.

Definition attached (a : adapter) (this : loc) : M unit :=
  match a with
  | TreeMapAdapter wb => TreeMap.attached wb this
  | TooltipAdapter wb => Tooltip.attached wb this
  | CalendarAdapter wb => Calendar.attached wb this
  | AuToolbarAdapter => AuToolbar.attached this
  end.

Definition detached (a : adapter) (this : loc) : M unit :=
  match a with
  | TreeMapAdapter wb => TreeMap.detached wb this
  | TooltipAdapter wb => Tooltip.detached wb this
  | CalendarAdapter wb => Calendar.detached wb this
  | AuToolbarAdapter => AuToolbar.detached this
  end.

(** The property the adapter keeps its native widget in. *)
Definition widget_handle (a : adapter) : string :=
  match a with
  | AuToolbarAdapter => "_component"
  | _ => "kWidget"
  end.

(** A bound property changing after attach: the binding system stores the
    new value on the view model and calls the change handler the class
    defines for it, [<property>Changed(newValue, oldValue)] or else
    [propertyChanged(property, newValue, oldValue)].  Calendar defines
    propertyChanged; TreeMap and Tooltip define neither; AuToolbar declares
    one bindable, options, and has neither optionsChanged nor
    propertyChanged (enable is not a bindable of the class, so no change of
    a bound property reaches its enableChanged). *)
Definition property_change (a : adapter) (this : loc) (property : string)
    (newValue : value) : M unit :=
  oldValue ← get_prop (VObj this) property;
  set_prop (VObj this) property newValue;;
  match a with
  | CalendarAdapter wb => Calendar.propertyChanged wb this property newValue oldValue
  | TreeMapAdapter _ | TooltipAdapter _ | AuToolbarAdapter => mret tt
  end.

End Lifecycle.

(** * The terms the statements are written in *)

(** ** Worlds and traces *)

(** The world left by a computation, and its outcome. *)
Definition after {A : Type} (m : M A) (w : world) : world := (m w).2.
Definition outcome {A : Type} (m : M A) (w : world) : result A := (m w).1.

(** The world once createWidget has been entered and nothing else done. *)
Definition entered (w : world) : world :=
  World (heap w) (taskQueue w) (trace w ++ [CallCreateWidget]).

(** The options objects the native constructor was called with. *)
Definition constructed_with (t : list effect) : list object :=
  omap (fun e => match e with KendoInit _ _ opts => Some opts | _ => None end) t.

Definition is_call_createWidget (e : effect) : bool :=
  match e with CallCreateWidget => true | _ => false end.

Definition is_construction (e : effect) : bool :=
  match e with KendoInit _ _ _ => true | _ => false end.

Definition is_destruction (e : effect) : bool :=
  match e with KendoDestroy _ => true | _ => false end.

(** A widget update or recreation. *)
Definition is_update (e : effect) : bool :=
  match e with
  | CallHandlePropertyChanged _ _ _ _ | KendoEnable _ _
  | CallCreateWidget | KendoInit _ _ _ => true
  | _ => false
  end.

Definition count (p : effect -> bool) (t : list effect) : nat :=
  List.length (List.filter p t).

(** The pending task [t] is a binding update of [property] on [target]. *)
Definition writes_to (target : loc) (property : string) (t : task) : bool :=
  match t with
  | BindingUpdate r p _ => bool_decide (r = target /\ p = property)
  | FireKendoEvent _ _ _ => false
  end.

(** ** What the helper computes, as maps read off the store *)

Section Vocabulary.
Context `{U : Util}.

(** What getOptionsFromBindables collects, as a map read off the store. *)
Definition bindables (props : object) (h : list cell) (vm : value) : object :=
  let options :=
    foldl (fun options prop => <[prop := read_prop h vm (getBindablePropertyName prop)]> options)
          ∅ (Object_keys props) in
  if truthy (read_prop h vm "kDataSource")
  then <["dataSource" := read_prop h vm "kDataSource"]> options
  else options.

(** The value the bindable for a native option holds. *)
Definition bound_value (this : WidgetBase) (h : list cell) (prop : string) : value :=
  read_prop h (viewModel this) (getBindablePropertyName prop).

Definition proxies (el : value) (events : list string) (options : object) : object :=
  foldl (fun options event => <[event := VProxy el event]> options) options events.

(** The options literal on the wrapper, as Object.assign sees it. *)
Definition literal_options (this : WidgetBase) (h : list cell) : object :=
  own_props h (read_prop h (viewModel this) "options").

Definition merged (literal options eventOptions : object) : object :=
  eventOptions ∪ (pruneOptions options ∪ (literal ∪ ∅)).

(** The object handed to the native constructor. *)
Definition all_options (parent : value) (literal options eventOptions : object) : object :=
  {[ "_$parent" := VArr [parent] ]} ∪ merged literal options eventOptions.

End Vocabulary.

(** TreeMap, Tooltip and Calendar attach, recreate and detach alike. *)
Definition uses_widget_base (a : adapter) : option WidgetBase :=
  match a with
  | TreeMapAdapter wb | TooltipAdapter wb | CalendarAdapter wb => Some wb
  | AuToolbarAdapter => None
  end.

(** ** The properties the claims speak of *)

(** What the keys of [opts] owe to the bindables: every native option
    whose bindable is neither undefined nor null has its key; a native
    option whose bindable is undefined or null has its key only if another
    source supplies it. *)
Definition covers_bindables `{U : Util} (this : WidgetBase) (el : value)
    (h : list cell) (props opts : object) : Prop :=
  forall prop, is_Some (props !! prop) ->
    (nullish (bound_value this h prop) = false -> is_Some (opts !! prop)) /\
    (nullish (bound_value this h prop) = true -> is_Some (opts !! prop) ->
       is_Some (literal_options this h !! prop)
       \/ (exists attributes, attributes_of h el = Some attributes /\
             prop ∈ getEventsFromAttributes_names attributes)
       \/ prop = "_$parent"
       \/ (prop = "dataSource" /\
           truthy (read_prop h (viewModel this) "kDataSource") = true)).

(** The later-merged source wins at [key]: an event handler over
    everything, else a bindable value that survives the pruning over the
    options literal, else the options literal. *)
Definition later_source_wins (literal options eventOptions result : object) : Prop :=
  forall key,
    match eventOptions !! key with
    | Some handler => result !! key = Some handler
    | None =>
        match options !! key with
        | Some v =>
            if nullish v then result !! key = literal !! key
            else result !! key = Some v
        | None => result !! key = literal !! key
        end
    end.

(** The helper has its control and a view model, and every event the host
    element asks for is in the control's vocabulary. *)
Definition ready `{U : Util} (this : WidgetBase) (el : value) (h : list cell)
    (control : string) (props : object) (events : list string) : Prop :=
  controlName this = Some control /\
  kendoOptions this = Some props /\
  nullish (viewModel this) = false /\
  exists attributes allowedEvents,
    attributes_of h el = Some attributes /\
    events = getEventsFromAttributes_names attributes /\
    kendoEvents this = Some allowedEvents /\
    Forall (fun event => event ∈ allowedEvents) events.

(** The world createWidget leaves between its two hooks, when the
    beforeInitialize hook has left [w2] with the merged options object at
    [allOptions]: _$parent (in an array) is added to the options, the
    native constructor is called with them, and the new widget gets its
    back-reference. *)
Definition instantiated (control : string) (el parent : value) (allOptions : loc)
    (w2 : world) : world :=
  let store := update_props (fun opts => {[ "_$parent" := VArr [parent] ]} ∪ opts)
                            allOptions (heap w2) in
  World (store ++ [Cell (Widget control) {[ "_$parent" := parent ]}])
        (taskQueue w2)
        (trace w2 ++ [KendoInit control el (props_at store allOptions)]).

(** [w'] has every object below location [n] as [w] has it. *)
Definition keeps (n : nat) (w w' : world) : Prop :=
  forall r, r < n -> heap w' !! r = heap w !! r.

(** A computation that, started with at least [n] objects in the store,
    leaves the first [n] as they are and, when it returns, returns a value
    satisfying [Q]. *)
Definition frames {A : Type} (n : nat) (m : M A) (Q : A -> Prop) : Prop :=
  forall w, n <= List.length (heap w) ->
    keeps n w (m w).2 /\
    match (m w).1 with Ok a => Q a | Throw _ => True end.

(** The hooks write only to objects created during the call: the merged
    options object they are handed, or objects of their own. *)
Definition hooks_keep (n : nat) (o : create_options) : Prop :=
  (forall f, beforeInitialize o = Some f ->
     forall allOptions, n <= allOptions -> frames n (f (VObj allOptions)) (fun _ => True)) /\
  (forall f, afterInitialize o = Some f -> frames n f (fun _ => True)).

(** What createWidget leaves alone: every object of the store it was
    called in, so the view model and its options literal in particular;
    and the handle it returns is not one of those objects. *)
Definition view_model_kept `{U : Util}
    (this : WidgetBase) (options : option create_options) (w : world) : Prop :=
  (forall r c, heap w !! r = Some c ->
               heap (after (createWidget this options) w) !! r = Some c) /\
  (forall vm key, viewModel this = VObj vm -> is_Some (heap w !! vm) ->
     read_prop (heap (after (createWidget this options) w)) (VObj vm) key
     = read_prop (heap w) (VObj vm) key) /\
  (forall literal, read_prop (heap w) (viewModel this) "options" = VObj literal ->
     is_Some (heap w !! literal) ->
     props_at (heap (after (createWidget this options) w)) literal
     = props_at (heap w) literal) /\
  (forall widget, outcome (createWidget this options) w = Ok widget ->
     exists r, widget = VObj r /\ List.length (heap w) <= r).

(** ** A sample ./util and a sample toolkit, for the worked examples *)

Definition to_upper (c : ascii) : ascii :=
  if ((97 <=? nat_of_ascii c)%nat && (nat_of_ascii c <=? 122)%nat)
  then ascii_of_nat (nat_of_ascii c - 32) else c.

Definition capitalize (s : string) : string :=
  match s with
  | EmptyString => EmptyString
  | String c rest => String (to_upper c) rest
  end.

Fixpoint unhyphenate (s : string) : string :=
  match s with
  | EmptyString => EmptyString
  | String c rest =>
      if Ascii.eqb c "-" then capitalize (unhyphenate rest)
      else String c (unhyphenate rest)
  end.

Definition event_of_attribute (name : string) : option string :=
  if String.prefix "on-" name
  then Some (unhyphenate (String.substring 3 (String.length name - 3) name))
  else None.

(** Bindables are named k + the capitalised option name (as kDataSource
    for dataSource); an attribute on-data-bound asks for dataBound. *)
Definition sample_util : Util := {|
  getBindablePropertyName prop := "k" +:+ capitalize prop;
  getEventsFromAttributes_names attributes := omap event_of_attribute attributes
|}.

Definition sample_jQuery_fn : gmap string widget_prototype :=
  {[ "kendoTreeMap" :=
       WidgetPrototype
         {[ "name" := VStr "TreeMap"; "textField" := VStr "text";
            "valueField" := VStr "value"; "autoBind" := VBool true ]}
         ["dataBound"; "itemCreated"];
     "kendoTooltip" :=
       WidgetPrototype
         {[ "name" := VStr "Tooltip"; "position" := VStr "bottom";
            "content" := VNull ]}
         ["show"; "hide"; "contentLoad"];
     "kendoCalendar" :=
       WidgetPrototype
         {[ "name" := VStr "Calendar"; "value" := VNull; "depth" := VStr "month" ]}
         ["change"; "navigate"] ]}.

Definition empty_world : world := World [] [] [].

(** ** Sample worlds *)

(** The store: the host element (asking for dataBound), the parent binding
    context, the TreeMap view model and the options literal bound to it.
    kTextField has been bound to null; the literal supplies textField,
    valueField and an entry under the event name dataBound. *)
Definition sample_world : world :=
  World [ Cell (Element ["on-data-bound"; "class"]) ∅;
          Cell Plain ∅;
          Cell Plain {[ "element" := VObj 0; "$parent" := VObj 1;
                        "options" := VObj 3;
                        "kName" := VStr "TreeMap"; "kTextField" := VNull;
                        "kValueField" := VStr "value"; "kAutoBind" := VBool true ]};
          Cell Plain {[ "textField" := VStr "label"; "valueField" := VStr "amount";
                        "dataBound" := VStr "literal" ]} ]
        [] [].

Definition sample_base : WidgetBase :=
  mkWidgetBase (Some "kendoTreeMap")
    (Some {[ "name" := VStr "TreeMap"; "textField" := VStr "text";
             "valueField" := VStr "value"; "autoBind" := VBool true ]})
    (Some ["dataBound"; "itemCreated"]) (VObj 2).

(** An element that also asks for an event the tree map does not have. *)
Definition unsupported_event_world : world :=
  World (<[0 := Cell (Element ["on-data-bound"; "on-selection-changed"]) ∅]> (heap sample_world))
        [] [].

(** A world in which the binding system still has an update pending. *)
Definition pending_world : world :=
  World (heap sample_world) [BindingUpdate 2 "kTextField" (VStr "name")] [].

(** A toolbar on an element: the world its constructor leaves. *)
Definition toolbar_world : world :=
  after (AuToolbar.constructor (VObj 0)) (World [Cell (Element ["class"]) ∅] [] []).

(** The sample tree map, attached. *)
Definition attached_world : world :=
  after (attached (U := sample_util) (TreeMapAdapter sample_base) 2) sample_world.

(** A tooltip on an element: the world and the helper its constructor
    leaves (less the reference to the helper under widgetBase). *)
Definition tooltip_world : world :=
  World [ Cell (Element ["title"]) ∅; Cell Plain {[ "element" := VObj 0 ]} ] [] [].

Definition tooltip_base : WidgetBase :=
  mkWidgetBase (Some "kendoTooltip")
    (Some {[ "name" := VStr "Tooltip"; "position" := VStr "bottom"; "content" := VNull ]})
    (Some ["show"; "hide"; "contentLoad"]) (VObj 1).

(** A call with a beforeInitialize hook that sets an option. *)
Definition themed_call : option create_options :=
  Some (CreateOptions (VObj 0) (VObj 1)
          (Some (fun allOptions => set_prop allOptions "theme" (VStr "dark"))) None).

(** ** Terms of the further properties *)

(** bind(ctx) of every adapter: TreeMap, Tooltip and Calendar keep the
    binding context in $parent; AuToolbar defines no bind. *)
Definition bind (a : adapter) (this : loc) (ctx : value) : M unit :=
  match a with
  | TreeMapAdapter _ => TreeMap.bind this ctx
  | TooltipAdapter _ => Tooltip.bind this ctx
  | CalendarAdapter _ => Calendar.bind this ctx
  | AuToolbarAdapter => mret tt
  end.

(** The bindable names of the native options do not collide. *)
Definition names_distinct `{U : Util} (props : object) : Prop :=
  forall p q, is_Some (props !! p) -> is_Some (props !! q) ->
    getBindablePropertyName p = getBindablePropertyName q -> p = q.

(** No native option is bound under the name [key]. *)
Definition not_a_bindable `{U : Util} (props : object) (key : string) : Prop :=
  forall prop, is_Some (props !! prop) -> getBindablePropertyName prop <> key.

(** A tooltip from construction to detach, as the framework drives it. *)
Definition tooltip_lifecycle `{U : Util} (jQuery_fn : gmap string widget_prototype)
    (el helper ctx : value) : M unit :=
  made ← Tooltip.constructor jQuery_fn el helper new_WidgetBase;
  Tooltip.bind made.1 ctx;;
  Tooltip.attached made.2 made.1;;
  Tooltip.detached made.2 made.1.

(** The methods of AuToolbar, called in any order. *)
Inductive toolbar_call : Type :=
  | CallAttached
  | CallDetached
  | CallGetOptions
  | CallEnableChanged (newValue : value).

Definition toolbar_step (this : loc) (c : toolbar_call) : M unit :=
  match c with
  | CallAttached => AuToolbar.attached this
  | CallDetached => AuToolbar.detached this
  | CallGetOptions => AuToolbar.getOptions this;; mret tt
  | CallEnableChanged newValue => AuToolbar.enableChanged this newValue
  end.

Fixpoint toolbar_run (this : loc) (calls : list toolbar_call) : M unit :=
  match calls with
  | [] => mret tt
  | c :: rest => toolbar_step this c;; toolbar_run this rest
  end.

(** The TreeMap constructor up to the call of control: the instance with
    its empty options object and its element. *)
Definition treemap_instance (el : value) (w : world) : world :=
  World (heap w ++ [Cell Plain (<["element" := el]>
                                  {[ "options" := VObj (S (List.length (heap w))) ]});
                    Cell Plain ∅])
        (taskQueue w) (trace w).

(** A sample options literal on the toolbar. *)
Definition toolbar_with_options : world :=
  after (set_prop (VObj 2) "resizable" (VBool false)) toolbar_world.

(** * Facts about the model *)

(** ** The store and Object.assign *)

Ltac run := unfold mbind, M_bind, mret, M_ret, lift, throw, emit, alloc,
  queueMicroTask, Object_assign, get_prop, set_prop, call_hook in *; simpl in *.

Lemma update_props_fresh (f : object -> object) (h : list cell) (c : cell) :
  update_props f (List.length h) (h ++ [c]) = h ++ [Cell (cell_kind c) (f (cell_props c))].
Proof.
  unfold update_props.
  rewrite lookup_app_r by lia.
  rewrite Nat.sub_diag. simpl.
  rewrite insert_app_r_alt by lia.
  by rewrite Nat.sub_diag.
Qed.

Lemma update_props_other (f : object -> object) (r r' : loc) (h : list cell) :
  r ≠ r' -> update_props f r h !! r' = h !! r'.
Proof.
  intros Hne. unfold update_props.
  destruct (h !! r); [by apply list_lookup_insert_ne | done].
Qed.

Lemma update_props_same_length (f : object -> object) (r : loc) (h : list cell) :
  List.length (update_props f r h) = List.length h.
Proof.
  unfold update_props. destruct (h !! r); [apply length_insert | done].
Qed.

Lemma props_at_snoc (h : list cell) (c : cell) :
  props_at (h ++ [c]) (List.length h) = cell_props c.
Proof.
  unfold props_at. rewrite lookup_app_r by lia. by rewrite Nat.sub_diag.
Qed.

Lemma props_at_snoc_empty (h : list cell) (k : kind) (r : loc) :
  props_at (h ++ [Cell k ∅]) r = props_at h r.
Proof.
  unfold props_at. destruct (decide (r < List.length h)) as [Hlt|Hge].
  - by rewrite lookup_app_l.
  - rewrite lookup_app_r by lia. rewrite (lookup_ge_None_2 h) by lia.
    by destruct (r - List.length h) as [|[|?]].
Qed.

Lemma own_props_snoc_empty (h : list cell) (k : kind) (v : value) :
  own_props (h ++ [Cell k ∅]) v = own_props h v.
Proof. destruct v; simpl; try done. apply props_at_snoc_empty. Qed.

Lemma read_prop_snoc_empty (h : list cell) (k : kind) (v : value) (key : string) :
  read_prop (h ++ [Cell k ∅]) v key = read_prop h v key.
Proof. unfold read_prop. by rewrite own_props_snoc_empty. Qed.

Lemma lookup_snoc_old (h : list cell) (c x : cell) (r : loc) :
  h !! r = Some x -> (h ++ [c]) !! r = Some x.
Proof. intros Hr. by apply lookup_app_l_Some. Qed.

(** ** getOptionsFromBindables *)

Lemma Object_keys_dom (o : object) (k : string) :
  k ∈ Object_keys o <-> is_Some (o !! k).
Proof.
  unfold Object_keys. rewrite list_elem_of_fmap. split.
  - intros [[k' v] [-> Hin]]. apply elem_of_map_to_list in Hin. by exists v.
  - intros [v Hv]. exists (k, v). split; [done | by apply elem_of_map_to_list].
Qed.

Lemma collect_lookup (f : string -> value) (keys : list string) (init : object) (k : string) :
  foldl (fun options prop => <[prop := f prop]> options) init keys !! k
  = if decide (k ∈ keys) then Some (f k) else init !! k.
Proof.
  revert init. induction keys as [|p keys IH]; intros init; simpl.
  - destruct (decide (k ∈ [])) as [Hin|_]; [by apply elem_of_nil in Hin | done].
  - rewrite IH. destruct (decide (k ∈ keys)) as [Hin|Hnin].
    + rewrite decide_True; [done | by right].
    + destruct (decide (k = p)) as [->|Hne].
      * rewrite decide_True by left. by rewrite lookup_insert_eq.
      * rewrite lookup_insert_ne by done.
        rewrite decide_False; [done|]. by intros [?|?]%elem_of_cons.
Qed.

Lemma pruneOptions_lookup (options : object) (k : string) (v : value) :
  pruneOptions options !! k = Some v <-> options !! k = Some v /\ nullish v = false.
Proof. unfold pruneOptions. by rewrite map_lookup_filter_Some. Qed.

Lemma pruneOptions_lookup_None (options : object) (k : string) :
  pruneOptions options !! k = None <->
  (forall v, options !! k = Some v -> nullish v = true).
Proof.
  unfold pruneOptions. rewrite map_lookup_filter_None. split.
  - intros [Hn | Hall] v Hv; [congruence|].
    specialize (Hall v Hv). simpl in Hall. by destruct (nullish v).
  - intros Hall. destruct (options !! k) as [v|] eqn:Hk; [right | by left].
    intros v' [= <-]. simpl. rewrite (Hall v eq_refl). done.
Qed.

Section WidgetBaseFacts.
Context `{U : Util}.

Lemma getOptionsFromBindables_run (this : WidgetBase) (w : world) :
  getOptionsFromBindables this w =
  (match kendoOptions this with
   | Some props =>
       if nullish (viewModel this) then Throw TypeError
       else Ok (bindables props (heap w) (viewModel this))
   | None => Throw TypeError
   end, w).
Proof.
  unfold getOptionsFromBindables, bindables.
  destruct (kendoOptions this); [|done].
  by destruct (nullish (viewModel this)).
Qed.

Lemma bindables_lookup (props : object) (h : list cell) (vm : value) (k : string) :
  bindables props h vm !! k =
  if decide (k = "dataSource" /\ truthy (read_prop h vm "kDataSource") = true)
  then Some (read_prop h vm "kDataSource")
  else if decide (is_Some (props !! k))
       then Some (read_prop h vm (getBindablePropertyName k))
       else None.
Proof.
  unfold bindables.
  assert (Hbase : forall k,
    foldl (fun options prop => <[prop := read_prop h vm (getBindablePropertyName prop)]> options)
          (∅ : object) (Object_keys props) !! k
    = if decide (is_Some (props !! k))
      then Some (read_prop h vm (getBindablePropertyName k)) else None).
  { intros k'.
    rewrite (collect_lookup (fun p => read_prop h vm (getBindablePropertyName p))).
    destruct (decide (k' ∈ Object_keys props)) as [Hin|Hnin].
    - rewrite decide_True; [done | by apply Object_keys_dom].
    - rewrite decide_False; [apply lookup_empty | by rewrite <- Object_keys_dom]. }
  destruct (truthy (read_prop h vm "kDataSource")) eqn:Hds.
  - destruct (decide (k = "dataSource")) as [->|Hne].
    + rewrite lookup_insert_eq. by rewrite decide_True.
    + rewrite lookup_insert_ne by done. rewrite Hbase.
      rewrite (decide_False (P := k = "dataSource" /\ true = true)); [done | tauto].
  - rewrite Hbase.
    rewrite (decide_False (P := k = "dataSource" /\ false = true)); [done|].
    intros [_ ?]; discriminate.
Qed.

(** ** getEventOptions *)

Lemma proxies_lookup (el : value) (events : list string) (options : object) (k : string) :
  proxies el events options !! k
  = if decide (k ∈ events) then Some (VProxy el k) else options !! k.
Proof. apply (collect_lookup (VProxy el)). Qed.

Lemma register_events_all_allowed (this : WidgetBase) (el : value)
    (allowedEvents events : list string) (options : object) :
  kendoEvents this = Some allowedEvents ->
  Forall (fun event => event ∈ allowedEvents) events ->
  register_events this el events options = Ok (proxies el events options).
Proof.
  intros Hk Hall. revert options.
  induction Hall as [|event rest Hin _ IH]; intros options; simpl; [done|].
  rewrite Hk, bool_decide_eq_true_2 by done. apply IH.
Qed.

Lemma register_events_rejects (this : WidgetBase) (el : value)
    (allowedEvents events : list string) (options : object) :
  kendoEvents this = Some allowedEvents ->
  Exists (fun event => event ∉ allowedEvents) events ->
  exists message, register_events this el events options = Throw (Error message).
Proof.
  intros Hk Hex. revert options.
  induction events as [|event rest IH]; intros options; [by inversion Hex|].
  simpl. rewrite Hk.
  destruct (bool_decide (event ∈ allowedEvents)) eqn:Hin.
  - apply IH. apply bool_decide_eq_true_1 in Hin.
    inversion Hex; subst; [contradiction | done].
  - eauto.
Qed.

Lemma register_events_ok_inv (this : WidgetBase) (el : value)
    (events : list string) (options registered : object) :
  register_events this el events options = Ok registered ->
  registered = proxies el events options /\
  (events = [] \/
   exists allowedEvents, kendoEvents this = Some allowedEvents /\
     Forall (fun event => event ∈ allowedEvents) events).
Proof.
  revert options. induction events as [|event rest IH]; intros options; simpl.
  - intros [= <-]. split; [done | by left].
  - destruct (kendoEvents this) as [allowedEvents|] eqn:Hk; [|done].
    destruct (bool_decide (event ∈ allowedEvents)) eqn:Hin; [|done].
    apply bool_decide_eq_true_1 in Hin.
    intros Hrest. destruct (IH _ Hrest) as [-> Hall]. split; [done|].
    right. exists allowedEvents. split; [done|].
    constructor; [done|].
    destruct Hall as [->|(allowed' & Hk' & Hall)]; [constructor|].
    by simplify_eq.
Qed.

Lemma getEventOptions_run (this : WidgetBase) (el : value) (w : world) :
  getEventOptions this el w =
  (match attributes_of (heap w) el with
   | Some attributes =>
       register_events this el (getEventsFromAttributes_names attributes) ∅
   | None => Throw TypeError
   end, w).
Proof.
  unfold getEventOptions, getEventsFromAttributes. run.
  destruct (attributes_of (heap w) el); [|done].
  by destruct (register_events _ _ _ _).
Qed.

(** ** _getOptions and createWidget, run *)

Lemma _getOptions_run (this : WidgetBase) (el : value) (w : world) :
  _getOptions this el w =
  match (getOptionsFromBindables this w).1 with
  | Throw e => (Throw e, w)
  | Ok options =>
      match (getEventOptions this el w).1 with
      | Throw e => (Throw e, w)
      | Ok eventOptions =>
          (Ok (List.length (heap w)),
           World (heap w ++ [Cell Plain (merged (literal_options this (heap w))
                                                options eventOptions)])
                 (taskQueue w) (trace w))
      end
  end.
Proof.
  unfold _getOptions. run.
  rewrite getOptionsFromBindables_run, getEventOptions_run. simpl.
  destruct (kendoOptions this) as [props|]; [|done].
  destruct (nullish (viewModel this)) eqn:Hvm; [done|].
  destruct (attributes_of (heap w) el) as [attributes|]; [|done].
  destruct (register_events _ _ _ _) as [eventOptions|e]; [|done].
  simpl.
  rewrite update_props_fresh. simpl.
  unfold literal_options, merged.
  by rewrite read_prop_snoc_empty, own_props_snoc_empty.
Qed.

Lemma createWidget_run (this : WidgetBase) (el parent : value) (w : world)
    (options eventOptions : object) (control : string) :
  truthy el = true -> truthy parent = true ->
  (getOptionsFromBindables this w).1 = Ok options ->
  (getEventOptions this el w).1 = Ok eventOptions ->
  controlName this = Some control ->
  let opts := all_options parent (literal_options this (heap w)) options eventOptions in
  createWidget this (Some (CreateOptions el parent None None)) w =
  (Ok (VObj (S (List.length (heap w)))),
   World (heap w ++ [Cell Plain opts; Cell (Widget control) {[ "_$parent" := parent ]}])
         (taskQueue w)
         (trace w ++ [CallCreateWidget; KendoInit control el opts])).
Proof.
  intros Hel Hparent Hopts Hev Hcn opts.
  unfold createWidget. run. rewrite Hel, Hparent. simpl.
  rewrite _getOptions_run.
  rewrite getOptionsFromBindables_run in Hopts |- *.
  rewrite getEventOptions_run in Hev |- *. simpl in *.
  rewrite Hopts, Hev. simpl.
  unfold kendo_init. rewrite Hcn. run.
  rewrite update_props_fresh. simpl.
  rewrite props_at_snoc. simpl.
  rewrite length_app. simpl.
  replace (List.length (heap w) + 1) with (S (List.length (heap w))) by lia.
  f_equal. f_equal.
  - set (c := Cell Plain _).
    replace (S (List.length (heap w))) with (List.length (heap w ++ [c])).
    2:{ rewrite length_app. simpl. lia. }
    rewrite update_props_fresh. simpl.
    rewrite <- (assoc_L (++)). simpl.
    by rewrite insert_empty.
  - by rewrite <- (assoc_L (++)).
Qed.

Lemma createWidget_ok_inv (this : WidgetBase) (el parent : value)
    (w w' : world) (widget : value) :
  createWidget this (Some (CreateOptions el parent None None)) w = (Ok widget, w') ->
  truthy el = true /\ truthy parent = true /\
  exists options eventOptions control,
    (getOptionsFromBindables this w).1 = Ok options /\
    (getEventOptions this el w).1 = Ok eventOptions /\
    controlName this = Some control.
Proof.
  unfold createWidget. run.
  destruct (truthy el); simpl; [|done].
  destruct (truthy parent); simpl; [|done].
  rewrite _getOptions_run.
  rewrite !getOptionsFromBindables_run, !getEventOptions_run. simpl.
  destruct (match kendoOptions this with Some _ => _ | None => _ end)
    as [options|e]; [|done].
  destruct (match attributes_of (heap w) el with Some _ => _ | None => _ end)
    as [eventOptions|e]; [|done].
  unfold kendo_init. destruct (controlName this) as [control|]; [|done].
  intros _. split; [done|]. split; [done|].
  by exists options, eventOptions, control.
Qed.

Lemma createWidget_throw_inv (this : WidgetBase) (el parent : value)
    (w w' : world) (e : error) :
  createWidget this (Some (CreateOptions el parent None None)) w = (Throw e, w') ->
  trace w' = trace w ++ [CallCreateWidget] /\ taskQueue w' = taskQueue w /\
  forall r c, heap w !! r = Some c -> heap w' !! r = Some c.
Proof.
  unfold createWidget. run.
  destruct (truthy el); simpl; [|by intros [= <- <-]].
  destruct (truthy parent); simpl; [|by intros [= <- <-]].
  rewrite _getOptions_run.
  rewrite !getOptionsFromBindables_run, !getEventOptions_run. simpl.
  destruct (match kendoOptions this with Some _ => _ | None => _ end)
    as [options|e1]; [|by intros [= <- <-]].
  destruct (match attributes_of (heap w) el with Some _ => _ | None => _ end)
    as [eventOptions|e1]; [|by intros [= <- <-]].
  unfold kendo_init. destruct (controlName this) as [control|]; [done|].
  simpl. intros [= <- <-]. simpl. repeat split.
  intros r c Hr. rewrite update_props_fresh. by apply lookup_snoc_old.
Qed.

Lemma getOptionsFromBindables_ok_inv (this : WidgetBase) (w : world) (options : object) :
  (getOptionsFromBindables this w).1 = Ok options ->
  exists props, kendoOptions this = Some props /\
    nullish (viewModel this) = false /\
    options = bindables props (heap w) (viewModel this).
Proof.
  rewrite getOptionsFromBindables_run. simpl.
  destruct (kendoOptions this) as [props|]; [|done].
  destruct (nullish (viewModel this)); [done|].
  intros [= <-]. by exists props.
Qed.

Lemma getEventOptions_ok_inv (this : WidgetBase) (el : value) (w : world)
    (eventOptions : object) :
  (getEventOptions this el w).1 = Ok eventOptions ->
  exists attributes, attributes_of (heap w) el = Some attributes /\
    eventOptions = proxies el (getEventsFromAttributes_names attributes) ∅ /\
    (getEventsFromAttributes_names attributes = [] \/
     exists allowedEvents, kendoEvents this = Some allowedEvents /\
       Forall (fun event => event ∈ allowedEvents)
              (getEventsFromAttributes_names attributes)).
Proof.
  rewrite getEventOptions_run. simpl.
  destruct (attributes_of (heap w) el) as [attributes|]; [|done].
  intros Hreg%register_events_ok_inv. by exists attributes.
Qed.

Lemma truthy_not_nullish (v : value) : truthy v = true -> nullish v = false.
Proof. by destruct v. Qed.

Lemma ready_getOptions (this : WidgetBase) (el : value) (w : world)
    (control : string) (props : object) (events : list string) :
  ready this el (heap w) control props events ->
  (getOptionsFromBindables this w).1 = Ok (bindables props (heap w) (viewModel this)) /\
  (getEventOptions this el w).1 = Ok (proxies el events ∅).
Proof.
  intros (_ & Hprops & Hvm & attributes & allowedEvents & Hattr & -> & Hallowed & Hall).
  rewrite getOptionsFromBindables_run, getEventOptions_run. simpl.
  rewrite Hprops, Hvm, Hattr. split; [done|].
  by apply (register_events_all_allowed _ _ allowedEvents).
Qed.

(** createWidget up to the beforeInitialize hook, on a ready helper. *)
Lemma createWidget_before (this : WidgetBase) (o : create_options) (w : world)
    (control : string) (props : object) (events : list string) :
  truthy (element o) = true -> truthy (parentCtx o) = true ->
  ready this (element o) (heap w) control props events ->
  createWidget this (Some o) w =
  match call_hook (beforeInitialize o) (fun f => f (VObj (List.length (heap w))))
                  (after (_getOptions this (element o)) (entered w)) with
  | (Throw e, w2) => (Throw e, w2)
  | (Ok _, w2) =>
      match call_hook (afterInitialize o) (fun f => f)
              (instantiated control (element o) (parentCtx o) (List.length (heap w)) w2) with
      | (Ok _, w4) => (Ok (VObj (List.length (heap w2))), w4)
      | (Throw e, w4) => (Throw e, w4)
      end
  end.
Proof.
  intros Hel Hparent Hready.
  pose proof Hready as (Hcn & _).
  destruct (ready_getOptions _ _ (entered w) _ _ _ Hready) as [Hopts Hev].
  unfold after. rewrite _getOptions_run, Hopts, Hev. simpl.
  unfold createWidget, mbind, M_bind, emit. simpl. rewrite Hel, Hparent. simpl.
  rewrite _getOptions_run. fold (entered w). rewrite Hopts, Hev. simpl.
  destruct (call_hook (beforeInitialize o) _ _) as [[[]|e] w2]; [|done].
  unfold Object_assign, kendo_init. rewrite Hcn.
  unfold mbind, M_bind, mret, M_ret, emit, alloc, set_prop. simpl.
  rewrite update_props_fresh, update_props_same_length. simpl.
  unfold instantiated.
  by destruct (call_hook (afterInitialize o) _ _) as [[[]|e] w4].
Qed.

End WidgetBaseFacts.

Lemma merged_lookup (literal options eventOptions : object) (key : string) :
  merged literal options eventOptions !! key =
  match eventOptions !! key with
  | Some handler => Some handler
  | None =>
      match pruneOptions options !! key with
      | Some v => Some v
      | None => literal !! key
      end
  end.
Proof.
  unfold merged.
  destruct (eventOptions !! key) as [handler|] eqn:Hev.
  - by apply lookup_union_Some_l.
  - rewrite lookup_union_r by done.
    destruct (pruneOptions options !! key) as [v|] eqn:Hpr.
    + by apply lookup_union_Some_l.
    + rewrite lookup_union_r by done. by rewrite (right_id_L ∅ (∪)).
Qed.

(** The same, of a call to createWidget without hooks. *)
Lemma createWidget_options_cover `{U : Util}
    (this : WidgetBase) (el parent : value) (w w' : world) (widget : value)
    (props : object) :
  kendoOptions this = Some props ->
  createWidget this (Some (CreateOptions el parent None None)) w = (Ok widget, w') ->
  exists control opts,
    trace w' = trace w ++ [CallCreateWidget; KendoInit control el opts] /\
    covers_bindables this el (heap w) props opts.
Proof.
  intros Hprops Hrun.
  destruct (createWidget_ok_inv _ _ _ _ _ _ Hrun)
    as (Hel & Hparent & options & eventOptions & control & Hopts & Hev & Hcn).
  rewrite (createWidget_run _ _ _ _ _ _ _ Hel Hparent Hopts Hev Hcn) in Hrun.
  injection Hrun as _ <-. simpl.
  exists control, (all_options parent (literal_options this (heap w)) options eventOptions).
  split; [done|].
  apply getOptionsFromBindables_ok_inv in Hopts as (props' & Hprops' & Hvm & ->).
  assert (props' = props) as -> by congruence.
  apply getEventOptions_ok_inv in Hev as (attributes & Hattr & -> & _).
  intros prop Hprop. unfold all_options, merged. split.
  - intros Hdefined.
    rewrite !lookup_union_is_Some. right. right. left.
    pose proof (bindables_lookup props (heap w) (viewModel this) prop) as Hlook.
    destruct (decide (prop = "dataSource" /\ _)) as [[_ Hds]|_] in Hlook.
    + eexists. apply pruneOptions_lookup. split; [exact Hlook|].
      by apply truthy_not_nullish.
    + rewrite decide_True in Hlook by done.
      eexists. apply pruneOptions_lookup. split; [exact Hlook | exact Hdefined].
  - intros Hnull.
    rewrite !lookup_union_is_Some.
    intros [Hp | [Hevt | [Hpruned | [Hlit | Hempty]]]].
    + right. right. left.
      destruct (decide (prop = "_$parent")) as [|Hne]; [done|].
      rewrite lookup_singleton_ne in Hp by done. by destruct Hp.
    + right. left. exists attributes. split; [done|].
      rewrite proxies_lookup in Hevt.
      destruct (decide (prop ∈ _)) as [|_] in Hevt; [done|].
      rewrite lookup_empty in Hevt. by destruct Hevt.
    + destruct Hpruned as [v Hv]. apply pruneOptions_lookup in Hv as [Hv Hnn].
      rewrite bindables_lookup in Hv.
      destruct (decide (prop = "dataSource" /\ _)) as [[-> Hds]|_] in Hv.
      * right. right. right. done.
      * rewrite decide_True in Hv by done. injection Hv as <-.
        unfold bound_value in Hnull. congruence.
    + by left.
    + rewrite lookup_empty in Hempty. by destruct Hempty.
Qed.

(** ** The micro-task queue *)

Lemma run_tasks_returns (ts : list task) (w : world) :
  exists w', run_tasks ts w = (Ok tt, w').
Proof.
  revert w. induction ts as [|t ts IH]; intros w; simpl; [by eexists|].
  unfold mbind, M_bind.
  destruct t; simpl; unfold set_prop, fireKendoEvent, emit; simpl; apply IH.
Qed.

Lemma run_tasks_snoc (ts : list task) (t : task) (w : world) :
  run_tasks (ts ++ [t]) w = run_task t (run_tasks ts w).2.
Proof.
  revert w. induction ts as [|t' ts IH]; intros w; simpl.
  - unfold mbind, M_bind. destruct t; simpl; by unfold set_prop, fireKendoEvent, emit.
  - unfold mbind, M_bind.
    destruct t'; simpl; unfold set_prop, fireKendoEvent, emit; simpl; apply IH.
Qed.

(** ** The lifecycle hooks of the adapters, run *)

Section AdapterFacts.
Context `{U : Util}.

Lemma attached_run (a : adapter) (wb : WidgetBase) (this : loc) (w : world) :
  uses_widget_base a = Some wb ->
  attached a this w =
  match createWidget wb
          (Some (CreateOptions (read_prop (heap w) (VObj this) "element")
                               (read_prop (heap w) (VObj this) "$parent") None None)) w with
  | (Ok kWidget, w1) =>
      (Ok tt, World (update_props (insert "kWidget" kWidget) this (heap w1))
                    (taskQueue w1) (trace w1))
  | (Throw e, w1) => (Throw e, w1)
  end.
Proof.
  destruct a; intros [= <-]; unfold attached; 
    [unfold TreeMap.attached, TreeMap.recreate
    |unfold Tooltip.attached, Tooltip.recreate
    |unfold Calendar.attached, Calendar.recreate]; run;
    by destruct (createWidget _ _ w) as [[kWidget|e] w1].
Qed.

Lemma detached_run (a : adapter) (this : loc) (w : world) :
  detached a this w =
  match a with
  | AuToolbarAdapter =>
      if truthy (read_prop (heap w) (VObj this) "_component")
      then call_destroy (read_prop (heap w) (VObj this) "_component") w
      else (Ok tt, w)
  | _ => call_destroy (read_prop (heap w) (VObj this) "kWidget") w
  end.
Proof.
  destruct a; unfold detached, TreeMap.detached, Tooltip.detached, Calendar.detached,
    AuToolbar.detached, destroy; run.
  1-3: by destruct (call_destroy _ w) as [[[]|e] w1].
  destruct (truthy _); [|done].
  by destruct (call_destroy _ w) as [[[]|e] w1].
Qed.

Lemma call_destroy_widget (widget : loc) (control : string) (props : object) (w : world) :
  heap w !! widget = Some (Cell (Widget control) props) ->
  call_destroy (VObj widget) w
  = (Ok tt, World (heap w) (taskQueue w) (trace w ++ [KendoDestroy widget])).
Proof. intros Hw. unfold call_destroy. by rewrite Hw. Qed.

(** After an attach that went through createWidget and returned, the
    handle holds the widget that was constructed. *)
Lemma attached_stores_widget (a : adapter) (wb : WidgetBase) (this : loc) (w w1 : world) :
  uses_widget_base a = Some wb ->
  is_Some (heap w !! this) ->
  attached a this w = (Ok tt, w1) ->
  exists control opts,
    trace w1 = trace w ++ [CallCreateWidget;
                           KendoInit control (read_prop (heap w) (VObj this) "element") opts] /\
    read_prop (heap w1) (VObj this) "kWidget" = VObj (S (List.length (heap w))) /\
    heap w1 !! S (List.length (heap w))
    = Some (Cell (Widget control)
                 {[ "_$parent" := read_prop (heap w) (VObj this) "$parent" ]}).
Proof.
  intros Ha [c Hthis] Hrun. rewrite (attached_run a wb) in Hrun by done.
  destruct (createWidget _ _ w) as [[kWidget|e] w'] eqn:Hcreate; [|done].
  destruct (createWidget_ok_inv _ _ _ _ _ _ Hcreate)
    as (Hel & Hparent & options & eventOptions & control & Hopts & Hev & Hcn).
  rewrite (createWidget_run _ _ _ _ _ _ _ Hel Hparent Hopts Hev Hcn) in Hcreate.
  injection Hcreate as <- <-. injection Hrun as <-. simpl.
  set (new := [Cell _ _; _]).
  assert (Hlt : this < List.length (heap w)) by (by eapply lookup_lt_Some).
  assert (Hold : (heap w ++ new) !! this = Some c) by (by apply lookup_app_l_Some).
  eexists control, _. split; [done|].
  unfold update_props. rewrite Hold. split.
  - unfold read_prop, own_props, props_at.
    rewrite list_lookup_insert_eq by (rewrite length_app; lia).
    simpl. by rewrite lookup_insert_eq.
  - rewrite list_lookup_insert_ne by lia.
    rewrite lookup_app_r by lia.
    by replace (S (List.length (heap w)) - List.length (heap w)) with 1 by lia.
Qed.

(** An attach through createWidget that throws has constructed nothing. *)
Lemma attached_throw_trace (a : adapter) (wb : WidgetBase) (this : loc)
    (w w1 : world) (e : error) :
  uses_widget_base a = Some wb ->
  attached a this w = (Throw e, w1) ->
  trace w1 = trace w ++ [CallCreateWidget].
Proof.
  intros Ha Hrun. rewrite (attached_run a wb) in Hrun by done.
  destruct (createWidget _ _ w) as [[kWidget|e'] w'] eqn:Hcreate; [done|].
  injection Hrun as <- <-.
  by apply createWidget_throw_inv in Hcreate as [? _].
Qed.

Lemma attached_ok_trace (a : adapter) (wb : WidgetBase) (this : loc) (w w1 : world) :
  uses_widget_base a = Some wb ->
  attached a this w = (Ok tt, w1) ->
  exists control el opts, trace w1 = trace w ++ [CallCreateWidget; KendoInit control el opts].
Proof.
  intros Ha Hrun. rewrite (attached_run a wb) in Hrun by done.
  destruct (createWidget _ _ w) as [[kWidget|e] w'] eqn:Hcreate; [|done].
  destruct (createWidget_ok_inv _ _ _ _ _ _ Hcreate)
    as (Hel & Hparent & options & eventOptions & control & Hopts & Hev & Hcn).
  rewrite (createWidget_run _ _ _ _ _ _ _ Hel Hparent Hopts Hev Hcn) in Hcreate.
  injection Hcreate as <- <-. injection Hrun as <-. simpl. by eexists _, _, _.
Qed.

End AdapterFacts.

Lemma read_prop_update_other (h : list cell) (r r' : loc) (key key' : string) (v : value) :
  key <> key' ->
  read_prop (update_props (insert key v) r h) (VObj r') key' = read_prop h (VObj r') key'.
Proof.
  intros Hne. unfold read_prop, own_props, props_at.
  destruct (decide (r = r')) as [<-|Hr].
  - unfold update_props. destruct (h !! r) as [c|] eqn:Hc; [|by rewrite Hc].
    rewrite list_lookup_insert_eq by (by eapply lookup_lt_Some).
    simpl. by rewrite lookup_insert_ne.
  - by rewrite update_props_other.
Qed.

(** ** Objects that were there before a computation *)

Lemma keeps_length (n : nat) (w w' : world) :
  keeps n w w' -> n <= List.length (heap w) -> n <= List.length (heap w').
Proof.
  intros Hkeeps Hn. destruct n as [|n]; [lia|].
  assert (Hlast : is_Some (heap w' !! n)).
  { rewrite Hkeeps by lia. apply lookup_lt_is_Some. lia. }
  apply lookup_lt_is_Some in Hlast. lia.
Qed.

Lemma frames_bind {A B : Type} (n : nat) (m : M A) (k : A -> M B)
    (Q : A -> Prop) (R : B -> Prop) :
  frames n m Q -> (forall a, Q a -> frames n (k a) R) -> frames n (m ≫= k) R.
Proof.
  intros Hm Hk w Hn. unfold mbind, M_bind.
  destruct (Hm w Hn) as [Hkeeps HQ].
  destruct (m w) as [[a|e] w1]; simpl in *; [|done].
  destruct (Hk a HQ w1 (keeps_length _ _ _ Hkeeps Hn)) as [Hkeeps' HR].
  split; [|done].
  intros r Hr. by rewrite Hkeeps', Hkeeps.
Qed.

Lemma frames_pure {A : Type} (n : nat) (r : result A) (Q : A -> Prop) :
  (forall a, r = Ok a -> Q a) -> frames n (fun w => (r, w)) Q.
Proof. intros HQ w _. simpl. split; [done|]. destruct r; [by apply HQ | done]. Qed.

Lemma frames_read {A : Type} (n : nat) (m : M A) :
  (forall w, (m w).2 = w) -> frames n m (fun _ => True).
Proof.
  intros Hm w _. rewrite Hm. split; [done|]. by destruct (m w).1.
Qed.

Lemma frames_emit (n : nat) (e : effect) : frames n (emit e) (fun _ => True).
Proof. by intros w _. Qed.

Lemma frames_alloc (n : nat) (c : cell) : frames n (alloc c) (fun r => n <= r).
Proof.
  intros w Hn. unfold alloc. simpl. split; [|done].
  intros r Hr. simpl. by rewrite lookup_app_l by lia.
Qed.

Lemma frames_update (n : nat) (f : object -> object) (r : loc) :
  n <= r ->
  frames n (fun w => (Ok tt, World (update_props f r (heap w)) (taskQueue w) (trace w)))
         (fun _ => True).
Proof.
  intros Hr w _. simpl. split; [|done].
  intros r' Hr'. apply update_props_other. lia.
Qed.

Lemma frames_set_prop (n : nat) (r : loc) (key : string) (x : value) :
  n <= r -> frames n (set_prop (VObj r) key x) (fun _ => True).
Proof. intros Hr. by apply frames_update. Qed.

Lemma frames_Object_assign (n : nat) (target : loc) (sources : list object) :
  n <= target -> frames n (Object_assign target sources) (fun _ => True).
Proof. intros Hr. by apply frames_update. Qed.

Section Frame.
Context `{U : Util}.

Lemma frames_getOptions (n : nat) (this : WidgetBase) (el : value) :
  frames n (_getOptions this el) (fun target => n <= target).
Proof.
  intros w Hn. rewrite _getOptions_run.
  destruct (getOptionsFromBindables this w).1; [|done].
  destruct (getEventOptions this el w).1; [|done].
  simpl. split; [|done].
  intros r Hr. simpl. by rewrite lookup_app_l by lia.
Qed.

Lemma frames_kendo_init (n : nat) (name : option string) (el : value) (allOptions : loc) :
  frames n (kendo_init name el allOptions)
         (fun widget => exists r, widget = VObj r /\ n <= r).
Proof.
  destruct name as [control|]; [|by apply frames_pure].
  unfold kendo_init.
  eapply frames_bind; [by apply (frames_read n), (fun w => eq_refl)|]. intros opts _.
  eapply frames_bind; [apply frames_emit|]. intros _ _.
  eapply frames_bind; [apply frames_alloc|]. intros widget Hwidget.
  apply frames_pure. intros ? [= <-]. by exists widget.
Qed.

Lemma frames_call_hook {A : Type} (n : nat) (hook : option A) (run : A -> M unit) :
  (forall f, hook = Some f -> frames n (run f) (fun _ => True)) ->
  frames n (call_hook hook run) (fun _ => True).
Proof.
  intros Hhook. destruct hook as [f|]; simpl; [by apply Hhook | by apply frames_pure].
Qed.

Lemma frames_createWidget (n : nat) (this : WidgetBase) (options : option create_options) :
  (forall o, options = Some o -> hooks_keep n o) ->
  frames n (createWidget this options)
         (fun widget => exists r, widget = VObj r /\ n <= r).
Proof.
  intros Hhooks. unfold createWidget.
  eapply frames_bind; [apply frames_emit|]. intros _ _.
  destruct options as [o|]; [|by apply frames_pure].
  destruct (Hhooks o eq_refl) as [Hbefore Hafter].
  destruct (negb (truthy (element o))); [by apply frames_pure|].
  destruct (negb (truthy (parentCtx o))); [by apply frames_pure|].
  eapply frames_bind; [apply frames_getOptions|]. intros allOptions Hfresh.
  eapply frames_bind.
  { apply frames_call_hook. intros f Hf. by apply (Hbefore f). }
  intros _ _.
  eapply frames_bind; [by apply frames_Object_assign|]. intros _ _.
  eapply frames_bind; [apply frames_kendo_init|]. intros widget (r & -> & Hr).
  eapply frames_bind; [by apply frames_set_prop|]. intros _ _.
  eapply frames_bind.
  { apply frames_call_hook. intros f Hf. by apply (Hafter f). }
  intros _ _.
  apply frames_pure. intros ? [= <-]. by exists r.
Qed.

End Frame.

(** ** The sample worlds are the ones the constructors leave *)

Example hyphenate_dataBound : _hyphenate "dataBound" = "data-bound".
Proof. reflexivity. Qed.

(** The sample world is the one the TreeMap constructor, two bindings and
    bind() leave behind, less the reference to the helper that the
    instance keeps under widgetBase. *)
Example sample_world_constructed (helper : value) :
  let setup : M WidgetBase :=
    host ← alloc (Cell (Element ["on-data-bound"; "class"]) ∅);
    ctx ← alloc (Cell Plain ∅);
    made ← TreeMap.constructor (U := sample_util) sample_jQuery_fn (VObj host) helper
             new_WidgetBase;
    literal ← get_prop (VObj made.1) "options";
    set_prop literal "textField" (VStr "label");;
    set_prop literal "valueField" (VStr "amount");;
    set_prop literal "dataBound" (VStr "literal");;
    set_prop (VObj made.1) "kTextField" VNull;;
    TreeMap.bind made.1 (VObj ctx);;
    mret made.2 in
  setup empty_world
  = (Ok sample_base,
     World (update_props (insert "widgetBase" helper) 2 (heap sample_world)) [] []).
Proof. vm_compute. reflexivity. Qed.

Example toolbar_world_store :
  toolbar_world
  = World [ Cell (Element ["class"]) ∅;
            Cell Plain {[ "element" := VObj 0; "options" := VObj 2 ]};
            Cell Plain ∅ ] [] [].
Proof. vm_compute. reflexivity. Qed.

Example tooltip_world_constructed (helper : value) :
  Tooltip.constructor sample_jQuery_fn (VObj 0) helper new_WidgetBase
    (World [Cell (Element ["title"]) ∅] [] [])
  = (Ok (1, tooltip_base),
     World (update_props (insert "widgetBase" helper) 1 (heap tooltip_world)) [] []).
Proof. vm_compute. reflexivity. Qed.

(** ** What a run of the micro-task queue does to the store *)

Lemma read_prop_update_same (h : list cell) (r : loc) (key : string) (v : value) :
  is_Some (h !! r) ->
  read_prop (update_props (insert key v) r h) (VObj r) key = v.
Proof.
  intros [c Hc]. unfold read_prop, own_props, props_at, update_props. rewrite Hc.
  rewrite list_lookup_insert_eq by (by eapply lookup_lt_Some).
  simpl. by rewrite lookup_insert_eq.
Qed.

Lemma update_props_is_Some (f : object -> object) (r r' : loc) (h : list cell) :
  is_Some (h !! r') -> is_Some (update_props f r h !! r').
Proof.
  intros Hr'. destruct (decide (r = r')) as [<-|Hne].
  - destruct Hr' as [c Hc]. unfold update_props. rewrite Hc.
    rewrite list_lookup_insert_eq by (by eapply lookup_lt_Some). by eexists.
  - by rewrite update_props_other.
Qed.

Lemma run_tasks_app (ts ts' : list task) (w : world) :
  run_tasks (ts ++ ts') w = run_tasks ts' (run_tasks ts w).2.
Proof.
  revert w. induction ts as [|t ts IH]; intros w; simpl; [done|].
  unfold mbind, M_bind.
  destruct t; simpl; unfold set_prop, fireKendoEvent, emit; simpl; apply IH.
Qed.

Lemma run_tasks_queue (ts : list task) (w : world) :
  taskQueue (run_tasks ts w).2 = taskQueue w.
Proof.
  revert w. induction ts as [|t ts IH]; intros w; simpl; [done|].
  unfold mbind, M_bind.
  destruct t; simpl; unfold set_prop, fireKendoEvent, emit; simpl; by rewrite IH.
Qed.

Lemma run_tasks_is_Some (ts : list task) (w : world) (r : loc) :
  is_Some (heap w !! r) -> is_Some (heap (run_tasks ts w).2 !! r).
Proof.
  revert w. induction ts as [|t ts IH]; intros w Hr; simpl; [done|].
  unfold mbind, M_bind.
  destruct t; simpl; unfold set_prop, fireKendoEvent, emit; simpl; apply IH; simpl;
    [by apply update_props_is_Some | done].
Qed.

Lemma read_prop_update_elsewhere (h : list cell) (r r' : loc) (key key' : string)
    (v : value) :
  ~ (r = r' /\ key = key') ->
  read_prop (update_props (insert key v) r h) (VObj r') key' = read_prop h (VObj r') key'.
Proof.
  intros Hne. destruct (decide (key = key')) as [<-|Hkey];
    [|by apply read_prop_update_other].
  assert (r <> r') as Hr by (intros ->; by apply Hne).
  unfold read_prop, own_props, props_at. by rewrite update_props_other.
Qed.

(** A run of pending tasks leaves a property as it is unless one of them
    is a binding update of it. *)
Lemma run_tasks_keeps_read (ts : list task) (w : world) (target : loc) (property : string) :
  Forall (fun t => writes_to target property t = false) ts ->
  read_prop (heap (run_tasks ts w).2) (VObj target) property
  = read_prop (heap w) (VObj target) property.
Proof.
  revert w. induction ts as [|t ts IH]; intros w Hts; simpl; [done|].
  apply Forall_cons in Hts as [Ht Hts].
  unfold mbind, M_bind.
  destruct t as [r p v|el event e]; simpl; unfold set_prop, fireKendoEvent, emit; simpl;
    rewrite IH by done; simpl; [|done].
  apply read_prop_update_elsewhere. simpl in Ht. by apply bool_decide_eq_false in Ht.
Qed.

(** * The claims *)

(** ** C1: the options handed to the native constructor on attach *)

(** C1, as stated, fails: a bound property that is null is kept out of the
    pruned bindables, but its key still reaches the native constructor when
    the options literal on the wrapper supplies it.  Here textField is a
    native option of the tree map, its bindable kTextField is null, and the
    object the constructor receives holds textField = "label". *)
Lemma attach_passes_literal_key_of_null_bindable :
  is_Some (kendoOptions sample_base ≫= (.!! "textField")) /\
  bound_value (U := sample_util) sample_base (heap sample_world) "textField" = VNull /\
  outcome (attached (U := sample_util) (TreeMapAdapter sample_base) 2) sample_world = Ok tt /\
  (.!! "textField") <$> constructed_with (trace attached_world) = [Some (VStr "label")].
Proof. vm_compute. split; [by eexists | done]. Qed.

(** C1 (amended): when an adapter's attach goes through createWidget (no
    hooks, as every adapter calls it) and the call returns, the native
    constructor is called exactly once, with an object that holds a key for
    every native option whose bindable is neither undefined nor null; for a
    native option whose bindable is undefined or null it holds the key only
    if the options literal on the wrapper or an event handler supplies it,
    or the key is the _$parent back-reference, or it is dataSource and
    kDataSource is truthy. *)
Theorem attach_options_cover_defined_bindables `{U : Util}
    (a : adapter) (wb : WidgetBase) (this : loc) (w w1 : world) (props : object) :
  uses_widget_base a = Some wb ->
  kendoOptions wb = Some props ->
  attached a this w = (Ok tt, w1) ->
  exists control opts,
    trace w1 = trace w ++ [CallCreateWidget;
                           KendoInit control (read_prop (heap w) (VObj this) "element") opts] /\
    covers_bindables wb (read_prop (heap w) (VObj this) "element") (heap w) props opts.
Proof.
  intros Ha Hprops Hrun. rewrite (attached_run a wb) in Hrun by done.
  destruct (createWidget _ _ w) as [[kWidget|e] w'] eqn:Hcreate; [|done].
  injection Hrun as <-. simpl.
  by apply (createWidget_options_cover wb _ (read_prop (heap w) (VObj this) "$parent")
              w w' kWidget).
Qed.

Lemma attach_options_cover_defined_bindables_witness :
  exists control opts,
    trace attached_world
    = trace sample_world
        ++ [CallCreateWidget;
            KendoInit control (read_prop (heap sample_world) (VObj 2) "element") opts] /\
    covers_bindables (U := sample_util) sample_base
      (read_prop (heap sample_world) (VObj 2) "element") (heap sample_world)
      {[ "name" := VStr "TreeMap"; "textField" := VStr "text";
         "valueField" := VStr "value"; "autoBind" := VBool true ]} opts.
Proof.
  apply (attach_options_cover_defined_bindables (U := sample_util)
           (TreeMapAdapter sample_base) sample_base 2 sample_world attached_world).
  - reflexivity.
  - reflexivity.
  - vm_compute. reflexivity.
Defined.

(** ** C2: precedence in the merged options object *)

(** C2: in the object _getOptions builds, for every key the later-merged
    source wins: an event-handler entry overrides both other sources, a
    bindable value that is neither undefined nor null overrides the options
    literal, and the options literal shows only where neither defines the
    key (it is merged first, so it never overrides a bound property). *)
Theorem getOptions_later_source_wins `{U : Util}
    (this : WidgetBase) (el : value) (w w' : world) (target : loc) :
  _getOptions this el w = (Ok target, w') ->
  exists options eventOptions,
    (getOptionsFromBindables this w).1 = Ok options /\
    (getEventOptions this el w).1 = Ok eventOptions /\
    later_source_wins (literal_options this (heap w)) options eventOptions
                      (props_at (heap w') target).
Proof.
  rewrite _getOptions_run.
  destruct (getOptionsFromBindables this w).1 as [options|e]; [|done].
  destruct (getEventOptions this el w).1 as [eventOptions|e]; [|done].
  intros [= <- <-]. exists options, eventOptions. split; [done|]. split; [done|].
  simpl. rewrite props_at_snoc. simpl.
  intros key. rewrite merged_lookup.
  destruct (eventOptions !! key) as [handler|]; [done|].
  destruct (options !! key) as [v|] eqn:Hopt.
  - destruct (nullish v) eqn:Hnull.
    + rewrite (proj2 (pruneOptions_lookup_None options key)); [done|].
      intros v' Hv'. congruence.
    + by rewrite (proj2 (pruneOptions_lookup options key v)).
  - rewrite (proj2 (pruneOptions_lookup_None options key)); [done|].
    intros v' Hv'. congruence.
Qed.

Lemma getOptions_later_source_wins_witness :
  exists options eventOptions,
    (getOptionsFromBindables (U := sample_util) sample_base sample_world).1 = Ok options /\
    (getEventOptions (U := sample_util) sample_base (VObj 0) sample_world).1 = Ok eventOptions /\
    later_source_wins (literal_options sample_base (heap sample_world))
      options eventOptions
      (props_at (heap (after (_getOptions (U := sample_util) sample_base (VObj 0)) sample_world)) 4).
Proof.
  apply (getOptions_later_source_wins (U := sample_util) sample_base (VObj 0) sample_world).
  vm_compute. reflexivity.
Defined.

(** On the sample: the literal's textField shows (its bindable is null),
    the bindable's valueField overrides the literal's, and the proxy for
    dataBound overrides the literal's entry of that name. *)
Example sample_merge :
  let result := props_at (heap (after (_getOptions (U := sample_util) sample_base (VObj 0)) sample_world)) 4 in
  result !! "textField" = Some (VStr "label") /\
  result !! "valueField" = Some (VStr "value") /\
  result !! "dataBound" = Some (VProxy (VObj 0) "dataBound").
Proof. vm_compute. done. Qed.

(** ** C3: event names against the control's vocabulary *)

(** C3: for every event name read off the host element's attributes, if it
    is in the control's vocabulary the options object getEventOptions
    returns holds exactly one entry under that name, the proxy handler for
    it; if it is not, getEventOptions throws and returns nothing.  The call
    does return when every name is in the vocabulary, and then the names
    are the only keys. *)
Theorem getEventOptions_registers_or_throws `{U : Util}
    (this : WidgetBase) (el : value) (w : world) (attributes allowedEvents : list string) :
  attributes_of (heap w) el = Some attributes ->
  kendoEvents this = Some allowedEvents ->
  (forall event, event ∈ getEventsFromAttributes_names attributes ->
     (event ∈ allowedEvents ->
      forall options, (getEventOptions this el w).1 = Ok options ->
                      options !! event = Some (VProxy el event)) /\
     (event ∉ allowedEvents ->
      exists message, getEventOptions this el w = (Throw (Error message), w)))
  /\ (Forall (fun event => event ∈ allowedEvents) (getEventsFromAttributes_names attributes) ->
      exists options, getEventOptions this el w = (Ok options, w) /\
        forall key, is_Some (options !! key) <->
                    key ∈ getEventsFromAttributes_names attributes).
Proof.
  intros Hattr Hallowed. rewrite getEventOptions_run, Hattr. simpl.
  set (events := getEventsFromAttributes_names attributes).
  split.
  - intros event Hin. split.
    + intros _ options [-> _]%register_events_ok_inv.
      rewrite proxies_lookup. by rewrite decide_True.
    + intros Hnot.
      destruct (register_events_rejects this el allowedEvents events ∅ Hallowed)
        as [message ->]; [|by exists message].
      apply Exists_exists. by exists event.
  - intros Hall.
    rewrite (register_events_all_allowed this el allowedEvents events ∅ Hallowed Hall).
    eexists. split; [done|].
    intros key. rewrite proxies_lookup.
    destruct (decide (key ∈ events)) as [Hin|Hnin].
    + split; [done | by eexists].
    + rewrite lookup_empty. split; [by intros [? ?] | done].
Qed.

Lemma getEventOptions_registers_or_throws_witness :
  (forall event, event ∈ ["dataBound"] ->
     (event ∈ ["dataBound"; "itemCreated"] ->
      forall options, (getEventOptions (U := sample_util) sample_base (VObj 0) sample_world).1 = Ok options ->
                      options !! event = Some (VProxy (VObj 0) event)) /\
     (event ∉ ["dataBound"; "itemCreated"] ->
      exists message,
        getEventOptions (U := sample_util) sample_base (VObj 0) sample_world = (Throw (Error message), sample_world)))
  /\ (Forall (fun event => event ∈ ["dataBound"; "itemCreated"]) ["dataBound"] ->
      exists options, getEventOptions (U := sample_util) sample_base (VObj 0) sample_world = (Ok options, sample_world) /\
        forall key, is_Some (options !! key) <-> key ∈ ["dataBound"]).
Proof.
  apply (getEventOptions_registers_or_throws (U := sample_util)
           sample_base (VObj 0) sample_world ["on-data-bound"; "class"]);
    reflexivity.
Defined.

Example getEventOptions_unsupported :
  getEventOptions (U := sample_util) sample_base (VObj 0) unsupported_event_world
  = (Throw (Error "selectionChanged is not an event on the kendoTreeMap control"),
     unsupported_event_world).
Proof. vm_compute. reflexivity. Qed.

(** ** C4: the proxy defers the DOM event to the micro-task queue *)

(** C4: a proxy registered by getEventOptions, when the native widget
    invokes it, dispatches nothing itself: it leaves the store and the
    trace as they are and puts one task at the back of the micro-task
    queue.  Flushing the queue then runs every task that was already
    pending, binding updates included, and only after them dispatches
    exactly one DOM event on the host element, named by the hyphenated
    event name: the listeners find the store as the pending tasks leave
    it, in which every property with a pending binding update holds the
    value of the last such update. *)
Theorem proxy_defers_redispatch `{U : Util}
    (this : WidgetBase) (el : value) (w : world) (options : object)
    (event : string) (handler e : value) (w1 : world) :
  (getEventOptions this el w).1 = Ok options ->
  options !! event = Some handler ->
  invoke handler e w1
    = (Ok tt, World (heap w1) (taskQueue w1 ++ [FireKendoEvent el event e]) (trace w1)) /\
  flushMicroTaskQueue (after (invoke handler e) w1)
    = (Ok tt,
       World (heap (after flushMicroTaskQueue w1)) []
             (trace (after flushMicroTaskQueue w1)
                ++ [DomEvent el (_hyphenate event) e (heap (after flushMicroTaskQueue w1))])) /\
  (forall earlier later target property v,
     taskQueue w1 = earlier ++ BindingUpdate target property v :: later ->
     Forall (fun t => writes_to target property t = false) later ->
     is_Some (heap w1 !! target) ->
     read_prop (heap (after flushMicroTaskQueue w1)) (VObj target) property = v).
Proof.
  intros (attributes & _ & -> & _)%getEventOptions_ok_inv Hhandler.
  rewrite proxies_lookup in Hhandler.
  destruct (decide (event ∈ _)) in Hhandler; [|by rewrite lookup_empty in Hhandler].
  injection Hhandler as <-.
  split; [done|]. split.
  - unfold after, flushMicroTaskQueue. simpl.
    rewrite run_tasks_snoc.
    pose proof (run_tasks_queue (taskQueue w1) (World (heap w1) [] (trace w1))) as Hqueue.
    destruct (run_tasks (taskQueue w1) _) as [res w2]. simpl in *.
    unfold fireKendoEvent, emit. by rewrite Hqueue.
  - intros earlier later target property v Hpending Hlater Htarget.
    unfold after, flushMicroTaskQueue. rewrite Hpending.
    rewrite run_tasks_app. simpl. unfold mbind, M_bind, set_prop. cbv beta.
    rewrite run_tasks_keeps_read by done. cbn [heap].
    apply read_prop_update_same.
    by apply (run_tasks_is_Some earlier (World (heap w1) [] (trace w1))).
Qed.

Lemma proxy_defers_redispatch_witness :
  invoke (VProxy (VObj 0) "dataBound") (VStr "native event") pending_world
    = (Ok tt, World (heap pending_world)
                (taskQueue pending_world
                   ++ [FireKendoEvent (VObj 0) "dataBound" (VStr "native event")])
                (trace pending_world)) /\
  flushMicroTaskQueue
    (after (invoke (VProxy (VObj 0) "dataBound") (VStr "native event")) pending_world)
    = (Ok tt,
       World (heap (after flushMicroTaskQueue pending_world)) []
             (trace (after flushMicroTaskQueue pending_world)
                ++ [DomEvent (VObj 0) (_hyphenate "dataBound") (VStr "native event")
                             (heap (after flushMicroTaskQueue pending_world))])) /\
  read_prop (heap (after flushMicroTaskQueue pending_world)) (VObj 2) "kTextField"
    = VStr "name".
Proof.
  destruct (proxy_defers_redispatch (U := sample_util) sample_base (VObj 0) sample_world
              {[ "dataBound" := VProxy (VObj 0) "dataBound" ]} "dataBound"
              (VProxy (VObj 0) "dataBound") (VStr "native event") pending_world)
    as (Hqueued & Hflushed & Hsettled).
  - vm_compute. reflexivity.
  - reflexivity.
  - split; [exact Hqueued|]. split; [exact Hflushed|].
    apply (Hsettled [] []); [reflexivity | constructor | by eexists].
Defined.

(** On the sample: nothing is dispatched while the binding update is
    pending; the flush applies it first and then dispatches one event named
    data-bound, whose listeners read the updated bindable; the queue is
    empty. *)
Example sample_redispatch :
  let called := after (invoke (VProxy (VObj 0) "dataBound") (VStr "native event"))
                      pending_world in
  let w := after flushMicroTaskQueue called in
  trace called = [] /\
  read_prop (heap called) (VObj 2) "kTextField" = VNull /\
  (exists store,
     trace w = [DomEvent (VObj 0) "data-bound" (VStr "native event") store] /\
     read_prop store (VObj 2) "kTextField" = VStr "name") /\
  taskQueue w = [].
Proof. vm_compute. repeat split. by eexists. Qed.

(** ** C5: the guards of createWidget *)

(** C5, as stated, fails in its second half: with the options object, the
    element and the parent context all present, createWidget still throws,
    and constructs nothing, when the element asks for an event the control
    does not have. *)
Lemma createWidget_throws_with_all_three_present :
  truthy (VObj 0) = true /\ truthy (VObj 1) = true /\
  outcome (createWidget (U := sample_util) sample_base (Some (CreateOptions (VObj 0) (VObj 1) None None)))
          unsupported_event_world
  = Throw (Error "selectionChanged is not an event on the kendoTreeMap control") /\
  count is_construction
    (trace (after (createWidget (U := sample_util) sample_base (Some (CreateOptions (VObj 0) (VObj 1) None None)))
                  unsupported_event_world)) = 0.
Proof. vm_compute. done. Qed.

(** C5 (amended): createWidget throws at once, having constructed nothing,
    when its argument is missing, or the element is missing (or otherwise
    falsy), or the parent context is.  With all three present it throws,
    still having constructed nothing, when building the merged options
    throws; on a helper that has its control and view model, with every
    event the element asks for in the control's vocabulary, the options
    are built and the beforeInitialize hook, if given, runs: if it throws
    so does the call, and otherwise the native widget is constructed, once,
    between the two hooks, and the call returns its handle unless the
    afterInitialize hook throws, which it does with the widget in place.
    Called without hooks the call returns, having constructed exactly that
    one widget with the merged options. *)
Theorem createWidget_guards_then_instantiates `{U : Util} (this : WidgetBase) (w : world) :
  createWidget this None w
    = (Throw (Error "the createWidget() function needs to be called with an object"),
       entered w)
  /\ (forall o, truthy (element o) = false ->
        createWidget this (Some o) w = (Throw (Error "element is not set"), entered w))
  /\ (forall o, truthy (element o) = true -> truthy (parentCtx o) = false ->
        createWidget this (Some o) w = (Throw (Error "parentCtx is not set"), entered w))
  /\ (forall o e, truthy (element o) = true -> truthy (parentCtx o) = true ->
        outcome (_getOptions this (element o)) (entered w) = Throw e ->
        createWidget this (Some o) w = (Throw e, entered w))
  /\ (forall o control props events e w2,
        truthy (element o) = true -> truthy (parentCtx o) = true ->
        ready this (element o) (heap w) control props events ->
        call_hook (beforeInitialize o) (fun f => f (VObj (List.length (heap w))))
                  (after (_getOptions this (element o)) (entered w)) = (Throw e, w2) ->
        createWidget this (Some o) w = (Throw e, w2))
  /\ (forall o control props events w2,
        truthy (element o) = true -> truthy (parentCtx o) = true ->
        ready this (element o) (heap w) control props events ->
        call_hook (beforeInitialize o) (fun f => f (VObj (List.length (heap w))))
                  (after (_getOptions this (element o)) (entered w)) = (Ok tt, w2) ->
        let w3 := instantiated control (element o) (parentCtx o) (List.length (heap w)) w2 in
        createWidget this (Some o) w
        = (match outcome (call_hook (afterInitialize o) (fun f => f)) w3 with
           | Ok _ => Ok (VObj (List.length (heap w2)))
           | Throw e => Throw e
           end,
           after (call_hook (afterInitialize o) (fun f => f)) w3))
  /\ (forall el parent control props events,
        truthy el = true -> truthy parent = true ->
        ready this el (heap w) control props events ->
        let opts := all_options parent (literal_options this (heap w))
                      (bindables props (heap w) (viewModel this)) (proxies el events ∅) in
        createWidget this (Some (CreateOptions el parent None None)) w
        = (Ok (VObj (S (List.length (heap w)))),
           World (heap w ++ [Cell Plain opts; Cell (Widget control) {[ "_$parent" := parent ]}])
                 (taskQueue w)
                 (trace w ++ [CallCreateWidget; KendoInit control el opts]))).
Proof.
  split; [done|]. split; [|split; [|split; [|split; [|split]]]].
  - intros o Hel. unfold createWidget. run. by rewrite Hel.
  - intros o Hel Hparent. unfold createWidget. run. by rewrite Hel, Hparent.
  - intros o e Hel Hparent Hthrow.
    unfold createWidget, mbind, M_bind, emit. simpl. rewrite Hel, Hparent. simpl.
    fold (entered w). unfold outcome in Hthrow. rewrite _getOptions_run in Hthrow |- *.
    destruct (getOptionsFromBindables this (entered w)).1 as [options|e1];
      [|by injection Hthrow as ->].
    destruct (getEventOptions this (element o) (entered w)).1 as [eventOptions|e1];
      [done | by injection Hthrow as ->].
  - intros o control props events e w2 Hel Hparent Hready Hhook.
    rewrite (createWidget_before _ _ _ _ _ _ Hel Hparent Hready). by rewrite Hhook.
  - intros o control props events w2 Hel Hparent Hready Hhook w3.
    rewrite (createWidget_before _ _ _ _ _ _ Hel Hparent Hready). rewrite Hhook.
    fold w3. unfold outcome, after.
    by destruct (call_hook (afterInitialize o) _ w3) as [[[]|e] w4].
  - intros el parent control props events Hel Hparent Hready opts.
    destruct (ready_getOptions _ _ w _ _ _ Hready) as [Hopts Hev].
    destruct Hready as (Hcn & _).
    by apply createWidget_run.
Qed.

Lemma createWidget_guards_then_instantiates_witness :
  createWidget (U := sample_util) sample_base themed_call sample_world
  = (Ok (VObj 5),
     instantiated "kendoTreeMap" (VObj 0) (VObj 1) 4
       (after (set_prop (VObj 4) "theme" (VStr "dark"))
              (after (_getOptions (U := sample_util) sample_base (VObj 0))
                     (entered sample_world)))).
Proof.
  refine (proj1 (proj2 (proj2 (proj2 (proj2 (proj2
    (createWidget_guards_then_instantiates (U := sample_util) sample_base sample_world))))))
    (CreateOptions (VObj 0) (VObj 1)
       (Some (fun allOptions => set_prop allOptions "theme" (VStr "dark"))) None)
    "kendoTreeMap" _ ["dataBound"] _ eq_refl eq_refl _ eq_refl).
  split; [reflexivity|]. split; [reflexivity|]. split; [reflexivity|].
  exists ["on-data-bound"; "class"], ["dataBound"; "itemCreated"].
  split; [reflexivity|]. split; [reflexivity|]. split; [reflexivity|].
  constructor; [|constructor]. apply list_elem_of_here.
Defined.

(** On the sample: a beforeInitialize hook that throws stops the call with
    nothing constructed; an afterInitialize hook that throws stops it with
    the widget constructed. *)
Example sample_hooks_throw :
  let before := Some (CreateOptions (VObj 0) (VObj 1)
                        (Some (fun _ => throw (Error "before"))) None) in
  let after_ := Some (CreateOptions (VObj 0) (VObj 1)
                        None (Some (throw (Error "after")))) in
  outcome (createWidget (U := sample_util) sample_base before) sample_world
    = Throw (Error "before") /\
  count is_construction
    (trace (after (createWidget (U := sample_util) sample_base before) sample_world)) = 0 /\
  outcome (createWidget (U := sample_util) sample_base after_) sample_world
    = Throw (Error "after") /\
  count is_construction
    (trace (after (createWidget (U := sample_util) sample_base after_) sample_world)) = 1.
Proof. vm_compute. done. Qed.

(** ** C6: attach and the shared helper *)

(** C6, as stated, fails for AuToolbar: its attached hook is empty, so
    attaching a toolbar that has no widget calls createWidget zero times
    and constructs nothing. *)
Lemma toolbar_attached_constructs_nothing :
  read_prop (heap toolbar_world) (VObj 1) (widget_handle AuToolbarAdapter) = VUndefined /\
  outcome (attached (U := sample_util) AuToolbarAdapter 1) toolbar_world = Ok tt /\
  count is_call_createWidget (trace (after (attached (U := sample_util) AuToolbarAdapter 1) toolbar_world)) = 0 /\
  count is_construction (trace (after (attached (U := sample_util) AuToolbarAdapter 1) toolbar_world)) = 0.
Proof. vm_compute. done. Qed.

(** C6 (amended): for every adapter built on the shared helper (TreeMap,
    Tooltip, Calendar) the attached hook calls createWidget exactly once,
    and that call constructs exactly one native widget when it returns and
    none when it throws; AuToolbar, which does not use the helper, calls
    it zero times and constructs nothing on attach. *)
Theorem attached_calls_createWidget_once `{U : Util} (a : adapter) (this : loc) (w : world) :
  exists added,
    trace (after (attached a this) w) = trace w ++ added /\
    count is_call_createWidget added
      = match uses_widget_base a with Some _ => 1 | None => 0 end /\
    count is_construction added
      = match uses_widget_base a, outcome (attached a this) w with
        | Some _, Ok _ => 1
        | _, _ => 0
        end.
Proof.
  unfold after, outcome.
  destruct (uses_widget_base a) as [wb|] eqn:Ha.
  - destruct (attached a this w) as [[[]|e] w1] eqn:Hrun; simpl.
    + destruct (attached_ok_trace a wb this w w1 Ha Hrun) as (control & el & opts & ->).
      by eexists.
    + rewrite (attached_throw_trace a wb this w w1 e Ha Hrun). by eexists.
  - destruct a; try discriminate Ha. simpl.
    exists []. by rewrite app_nil_r.
Qed.

(** On the sample tree map: one call, one construction. *)
Example sample_attached_trace :
  outcome (attached (U := sample_util) (TreeMapAdapter sample_base) 2) sample_world = Ok tt /\
  count is_call_createWidget (trace attached_world) = 1 /\
  count is_construction (trace attached_world) = 1 /\
  read_prop (heap attached_world) (VObj 2) "kWidget" = VObj 5.
Proof. vm_compute. done. Qed.

(** ** C7: detach after attach *)

(** C7, as stated, fails for AuToolbar: its attach returns without creating
    a widget, and the detach that follows destroys nothing. *)
Lemma toolbar_detach_after_attach_destroys_nothing :
  outcome (attached (U := sample_util) AuToolbarAdapter 1) toolbar_world = Ok tt /\
  outcome (detached AuToolbarAdapter 1) (after (attached (U := sample_util) AuToolbarAdapter 1) toolbar_world)
  = Ok tt /\
  count is_destruction
    (trace (after (detached AuToolbarAdapter 1)
                  (after (attached (U := sample_util) AuToolbarAdapter 1) toolbar_world))) = 0.
Proof. vm_compute. done. Qed.

(** C7 (amended): for every adapter, detach makes exactly one widget
    destruction call when the adapter's handle holds a native widget; an
    attach through the shared helper that returns (TreeMap, Tooltip,
    Calendar) leaves the handle so, hence detach after it destroys exactly
    the widget that attach constructed; WidgetBase.destroy calls
    widget.destroy() with no guard: called again on the same widget it
    destroys again. *)
Theorem detached_destroys_once `{U : Util} (a : adapter) (this : loc) (w : world) :
  (forall widget control props,
     read_prop (heap w) (VObj this) (widget_handle a) = VObj widget ->
     heap w !! widget = Some (Cell (Widget control) props) ->
     detached a this w
     = (Ok tt, World (heap w) (taskQueue w) (trace w ++ [KendoDestroy widget])))
  /\ (forall wb w1,
        uses_widget_base a = Some wb ->
        is_Some (heap w !! this) ->
        attached a this w = (Ok tt, w1) ->
        exists control opts,
          trace w1 = trace w ++ [CallCreateWidget;
                                 KendoInit control (read_prop (heap w) (VObj this) "element") opts] /\
          detached a this w1
          = (Ok tt, World (heap w1) (taskQueue w1)
                          (trace w1 ++ [KendoDestroy (S (List.length (heap w)))])))
  /\ (forall wb widget control props,
        heap w !! widget = Some (Cell (Widget control) props) ->
        destroy wb (VObj widget) w
        = (Ok tt, World (heap w) (taskQueue w) (trace w ++ [KendoDestroy widget])) /\
        destroy wb (VObj widget) (after (destroy wb (VObj widget)) w)
        = (Ok tt, World (heap w) (taskQueue w)
                        (trace w ++ [KendoDestroy widget; KendoDestroy widget]))).
Proof.
  assert (Hhandle : forall w' widget control props,
    read_prop (heap w') (VObj this) (widget_handle a) = VObj widget ->
    heap w' !! widget = Some (Cell (Widget control) props) ->
    detached a this w'
    = (Ok tt, World (heap w') (taskQueue w') (trace w' ++ [KendoDestroy widget]))).
  { intros w' widget control props Hread Hwidget. rewrite detached_run.
    destruct a; simpl in Hread; rewrite Hread; simpl;
      by apply (call_destroy_widget widget control props). }
  split; [apply Hhandle|]. split.
  - intros wb w1 Ha Hthis Hrun.
    destruct (attached_stores_widget a wb this w w1 Ha Hthis Hrun)
      as (control & opts & Htrace & Hread & Hwidget).
    exists control, opts. split; [done|].
    apply (Hhandle w1 _ control {[ "_$parent" := read_prop (heap w) (VObj this) "$parent" ]});
      [|done].
    by destruct a.
  - intros wb widget control props Hwidget. unfold destroy, after.
    rewrite (call_destroy_widget widget control props w Hwidget).
    split; [done|]. cbn [snd].
    rewrite (call_destroy_widget widget control props) by done. simpl.
    by rewrite <- (assoc_L (++)).
Qed.

Lemma detached_destroys_once_witness :
  exists control opts,
    trace attached_world
    = trace sample_world
        ++ [CallCreateWidget;
            KendoInit control (read_prop (heap sample_world) (VObj 2) "element") opts] /\
    detached (TreeMapAdapter sample_base) 2 attached_world
    = (Ok tt, World (heap attached_world) (taskQueue attached_world)
                    (trace attached_world ++ [KendoDestroy 5])).
Proof.
  refine (proj1 (proj2
    (detached_destroys_once (U := sample_util) (TreeMapAdapter sample_base) 2 sample_world))
    sample_base attached_world eq_refl _ _).
  - by eexists.
  - vm_compute. reflexivity.
Defined.

(** ** C8: a bound property changing after attach *)

(** C8, as stated, fails in its "never zero": TreeMap defines no change
    handler, so a bound property changing after a successful attach
    reaches the view model and triggers no update or recreation at all. *)
Lemma treemap_property_change_updates_nothing :
  outcome (attached (U := sample_util) (TreeMapAdapter sample_base) 2) sample_world = Ok tt /\
  outcome (property_change (TreeMapAdapter sample_base) 2 "kValueField" (VStr "total"))
          attached_world = Ok tt /\
  read_prop (heap (after (property_change (TreeMapAdapter sample_base) 2 "kValueField"
                            (VStr "total")) attached_world))
            (VObj 2) "kValueField" = VStr "total" /\
  trace (after (property_change (TreeMapAdapter sample_base) 2 "kValueField" (VStr "total"))
               attached_world)
  = trace attached_world.
Proof. vm_compute. done. Qed.

(** C8 (amended): for every adapter, a bound property changing triggers at
    most one widget update or recreation.  Calendar's propertyChanged hands
    the change to the helper exactly once, with the widget handle, the
    property, the new value and the old one.  TreeMap and Tooltip define no
    change handler, and AuToolbar none for its one bindable, options: for
    these three nothing is triggered.  AuToolbar.enableChanged, which no
    bound property reaches, makes exactly one enable call, with the new
    value, on the widget the toolbar holds, and none when it holds none. *)
Theorem property_change_updates_at_most_once
    (a : adapter) (this : loc) (property : string) (newValue : value) (w : world) :
  (exists added,
     trace (after (property_change a this property newValue) w) = trace w ++ added /\
     count is_update added <= 1 /\
     match a with
     | CalendarAdapter _ =>
         exists kWidget,
           added = [CallHandlePropertyChanged kWidget property newValue
                      (read_prop (heap w) (VObj this) property)] /\
           (property <> "kWidget" -> kWidget = read_prop (heap w) (VObj this) "kWidget")
     | TreeMapAdapter _ | TooltipAdapter _ | AuToolbarAdapter => added = []
     end) /\
  (forall widget control props,
     read_prop (heap w) (VObj this) "_component" = VObj widget ->
     heap w !! widget = Some (Cell (Widget control) props) ->
     AuToolbar.enableChanged this newValue w
     = (Ok tt, World (heap w) (taskQueue w) (trace w ++ [KendoEnable widget newValue]))) /\
  (truthy (read_prop (heap w) (VObj this) "_component") = false ->
     AuToolbar.enableChanged this newValue w = (Ok tt, w)).
Proof.
  split; [|split].
  - unfold after, property_change. run.
    destruct a.
    + exists []. rewrite app_nil_r. simpl. repeat split; first [done | unfold count; simpl; lia].
    + exists []. rewrite app_nil_r. simpl. repeat split; first [done | unfold count; simpl; lia].
    + unfold Calendar.propertyChanged, handlePropertyChanged. run.
      eexists [_]. split; [done|]. split; [unfold count; simpl; lia|].
      eexists. split; [done|]. intros Hne. by apply read_prop_update_other.
    + exists []. rewrite app_nil_r. simpl. repeat split; first [done | unfold count; simpl; lia].
  - intros widget control props Hcomponent Hwidget.
    unfold AuToolbar.enableChanged. run. rewrite Hcomponent. simpl.
    unfold AuToolbar.call_enable. by rewrite Hwidget.
  - intros Hunset. unfold AuToolbar.enableChanged. run. by rewrite Hunset.
Qed.

(** On a calendar that has been attached, and on a toolbar that has been
    given a widget: one request to the helper, one enable call. *)
Example sample_updates :
  let calendar := CalendarAdapter sample_base in
  let attached_calendar := after (attached (U := sample_util) calendar 2) sample_world in
  let toolbar := World (heap toolbar_world ++ [Cell (Widget "kendoToolBar") ∅]) [] [] in
  let held := after (set_prop (VObj 1) "_component" (VObj 3)) toolbar in
  trace (after (property_change calendar 2 "kValueField" (VStr "total")) attached_calendar)
    = trace attached_calendar
        ++ [CallHandlePropertyChanged (VObj 5) "kValueField" (VStr "total") (VStr "value")] /\
  trace (after (AuToolbar.enableChanged 1 (VBool false)) held)
    = [KendoEnable 3 (VBool false)].
Proof. vm_compute. done. Qed.

(** ** C9: detach without attach *)

(** C9: detach on an adapter whose widget handle was never set is not
    uniform: AuToolbar.detached tests its handle and does nothing, while
    Tooltip, TreeMap and Calendar hand the undefined handle to
    WidgetBase.destroy, whose unguarded widget.destroy() throws. *)
Theorem detach_without_attach (a : adapter) (this : loc) (w : world) :
  read_prop (heap w) (VObj this) (widget_handle a) = VUndefined ->
  detached a this w
  = (match a with AuToolbarAdapter => Ok tt | _ => Throw TypeError end, w).
Proof.
  intros Hunset. rewrite detached_run.
  destruct a; simpl in *; by rewrite Hunset.
Qed.

Lemma detach_without_attach_witness :
  detached AuToolbarAdapter 1 toolbar_world = (Ok tt, toolbar_world) /\
  detached (TooltipAdapter tooltip_base) 1 tooltip_world = (Throw TypeError, tooltip_world).
Proof.
  split.
  - apply (detach_without_attach AuToolbarAdapter 1 toolbar_world).
    vm_compute. reflexivity.
  - apply (detach_without_attach (TooltipAdapter tooltip_base) 1 tooltip_world).
    vm_compute. reflexivity.
Defined.

(** ** C10: createWidget and the objects that were there before the call *)

(** C10: createWidget leaves every object that existed before the call as
    it was, given hooks that write only to the object they are handed or
    to objects of their own: the view model keeps every property, its
    options literal keeps its keys and values (no _$parent is added to
    it), and the handle returned is a new object.  The merge and the
    _$parent back-reference go to objects created during the call. *)
Theorem createWidget_leaves_view_model `{U : Util}
    (this : WidgetBase) (options : option create_options) (w : world) :
  (forall o, options = Some o -> hooks_keep (List.length (heap w)) o) ->
  view_model_kept this options w.
Proof.
  intros Hhooks.
  destruct (frames_createWidget (List.length (heap w)) this options Hhooks w (le_n _))
    as [Hkeeps Hwidget].
  assert (Hcell : forall r c, heap w !! r = Some c ->
                              heap (after (createWidget this options) w) !! r = Some c).
  { intros r c Hr. unfold after. rewrite Hkeeps; [done|]. by eapply lookup_lt_Some. }
  split; [done|]. split; [|split].
  - intros vm key _ [c Hc]. pose proof (Hcell vm c Hc) as Hc'.
    unfold read_prop, own_props, props_at. by rewrite Hc', Hc.
  - intros literal _ [c Hc]. pose proof (Hcell literal c Hc) as Hc'.
    unfold props_at. by rewrite Hc', Hc.
  - intros widget Hok. unfold outcome in Hok. by rewrite Hok in Hwidget.
Qed.

Lemma createWidget_leaves_view_model_witness :
  view_model_kept (U := sample_util) sample_base themed_call sample_world.
Proof.
  apply (createWidget_leaves_view_model (U := sample_util) sample_base themed_call sample_world).
  intros o [= <-]. split.
  - intros f [= <-] allOptions Hfresh. by apply frames_set_prop.
  - intros f Hf. discriminate Hf.
Defined.

(** On the sample: the call returns the new widget; the view model and the
    options literal are as before; theme and _$parent are on the merged
    object, _$parent on the widget. *)
Example sample_createWidget_store :
  let w := after (createWidget (U := sample_util) sample_base themed_call) sample_world in
  outcome (createWidget (U := sample_util) sample_base themed_call) sample_world = Ok (VObj 5) /\
  heap w !! 2 = heap sample_world !! 2 /\
  heap w !! 3 = heap sample_world !! 3 /\
  props_at (heap w) 3 !! "_$parent" = None /\
  props_at (heap w) 4 !! "_$parent" = Some (VArr [VObj 1]) /\
  props_at (heap w) 4 !! "theme" = Some (VStr "dark") /\
  props_at (heap w) 5 !! "_$parent" = Some (VObj 1).
Proof. vm_compute. done. Qed.

(** * Further properties of the helper and the adapters *)

(** ** control and linkViewModel *)

(** X11: control and linkViewModel configure disjoint fields of the helper:
    when both succeed they do so in either order with the same result,
    which holds the control's name, the registered option defaults and
    event vocabulary, and the view model; a later control replaces all of
    an earlier one's fields and keeps the view model. *)
Theorem control_linkViewModel_compose
    (jQuery_fn : gmap string widget_prototype) (name : string) (vm : value)
    (this configured linked : WidgetBase) :
  control jQuery_fn name this = Ok configured ->
  linkViewModel vm configured = Ok linked ->
  (exists widget, jQuery_fn !! name = Some widget /\
     linked = mkWidgetBase (Some name) (Some (proto_options widget))
                           (Some (proto_events widget)) vm) /\
  truthy vm = true /\
  (exists linked_first, linkViewModel vm this = Ok linked_first /\
     control jQuery_fn name linked_first = Ok linked) /\
  (forall other, control jQuery_fn other linked
                 = control jQuery_fn other
                     (mkWidgetBase None None None vm)).
Proof.
  unfold control, linkViewModel.
  destruct (String.eqb name "") eqn:Hname; [done|].
  destruct (jQuery_fn !! name) as [widget|] eqn:Hfn; [|done].
  intros [= <-]. simpl.
  destruct (truthy vm) eqn:Hvm; [|done]. simpl.
  intros [= <-]. split; [by exists widget|]. split; [done|]. split.
  - by eexists.
  - intros other. by destruct (if String.eqb other "" then None else jQuery_fn !! other).
Qed.

Lemma control_linkViewModel_compose_witness :
  (exists widget, sample_jQuery_fn !! "kendoTreeMap" = Some widget /\
     sample_base = mkWidgetBase (Some "kendoTreeMap") (Some (proto_options widget))
                                (Some (proto_events widget)) (VObj 2)) /\
  truthy (VObj 2) = true /\
  (exists linked_first, linkViewModel (VObj 2) new_WidgetBase = Ok linked_first /\
     control sample_jQuery_fn "kendoTreeMap" linked_first = Ok sample_base) /\
  (forall other, control sample_jQuery_fn other sample_base
                 = control sample_jQuery_fn other
                     (mkWidgetBase None None None (VObj 2))).
Proof.
  apply (control_linkViewModel_compose sample_jQuery_fn "kendoTreeMap" (VObj 2)
           new_WidgetBase
           (mkWidgetBase (Some "kendoTreeMap")
              (Some {[ "name" := VStr "TreeMap"; "textField" := VStr "text";
                       "valueField" := VStr "value"; "autoBind" := VBool true ]})
              (Some ["dataBound"; "itemCreated"]) VUndefined)).
  - vm_compute. reflexivity.
  - reflexivity.
Defined.

(** ** getOptionsFromBindables *)

(** X3: getOptionsFromBindables only reads: it leaves the world as it is.
    On a helper without its control or without a view model it throws a
    TypeError.  Otherwise it returns an object with exactly one entry per
    native option, plus dataSource when kDataSource is truthy: each native
    option holds what its bindable reads (undefined when the view model has
    no such property), except that a truthy kDataSource takes the place of
    dataSource. *)
Theorem getOptionsFromBindables_entries `{U : Util} (this : WidgetBase) (w : world) :
  (kendoOptions this = None \/ nullish (viewModel this) = true ->
   getOptionsFromBindables this w = (Throw TypeError, w))
  /\ (forall props, kendoOptions this = Some props -> nullish (viewModel this) = false ->
      exists options,
        getOptionsFromBindables this w = (Ok options, w) /\
        (forall key, is_Some (options !! key) <->
           is_Some (props !! key) \/
           (key = "dataSource" /\
            truthy (read_prop (heap w) (viewModel this) "kDataSource") = true)) /\
        (forall prop, is_Some (props !! prop) ->
           (prop = "dataSource" ->
            truthy (read_prop (heap w) (viewModel this) "kDataSource") = false) ->
           options !! prop = Some (bound_value this (heap w) prop)) /\
        (truthy (read_prop (heap w) (viewModel this) "kDataSource") = true ->
         options !! "dataSource" = Some (read_prop (heap w) (viewModel this) "kDataSource"))).
Proof.
  rewrite getOptionsFromBindables_run. split.
  - intros [-> | Hvm]; [done|]. destruct (kendoOptions this); [by rewrite Hvm | done].
  - intros props -> ->. eexists. split; [done|].
    set (kDataSource := read_prop (heap w) (viewModel this) "kDataSource").
    split; [|split].
    + intros key. rewrite bindables_lookup. fold kDataSource.
      destruct (decide (key = "dataSource" /\ truthy kDataSource = true)) as [Hds|Hds].
      * split; [by right | by eexists].
      * destruct (decide (is_Some (props !! key))) as [Hp|Hp].
        -- split; [by left | by eexists].
        -- split; [by intros [? ?] | by intros [?|?]].
    + intros prop Hprop Hds. rewrite bindables_lookup. fold kDataSource.
      rewrite decide_False.
      * by rewrite decide_True.
      * intros [Heq Htrue]. specialize (Hds Heq). congruence.
    + intros Htrue. rewrite bindables_lookup. fold kDataSource.
      by rewrite decide_True.
Qed.

Lemma getOptionsFromBindables_entries_witness :
  exists options,
    getOptionsFromBindables (U := sample_util) sample_base sample_world
    = (Ok options, sample_world) /\
    options !! "textField" = Some VNull /\
    options !! "valueField" = Some (VStr "value") /\
    options !! "dataSource" = None.
Proof.
  destruct (proj2 (getOptionsFromBindables_entries (U := sample_util) sample_base sample_world)
              _ eq_refl eq_refl) as (options & Hrun & Hkeys & Hvalues & _).
  exists options. split; [exact Hrun|]. split; [|split].
  - apply (Hvalues "textField"); [by vm_compute; eexists | discriminate].
  - apply (Hvalues "valueField"); [by vm_compute; eexists | discriminate].
  - apply eq_None_not_Some. rewrite Hkeys. vm_compute.
    intros [[? ?] | [_ ?]]; discriminate.
Defined.

(** ** Attach, bind, recreate and detach of the adapters on the helper *)

Section AdapterLifecycleFacts.
Context `{U : Util}.

(** The world an attach through createWidget leaves when it returns. *)
Lemma attached_ok_world (a : adapter) (wb : WidgetBase) (this : loc) (w w1 : world) :
  uses_widget_base a = Some wb ->
  attached a this w = (Ok tt, w1) ->
  exists control options eventOptions,
    let el := read_prop (heap w) (VObj this) "element" in
    let parent := read_prop (heap w) (VObj this) "$parent" in
    let opts := all_options parent (literal_options wb (heap w)) options eventOptions in
    truthy el = true /\ truthy parent = true /\
    w1 = World (update_props (insert "kWidget" (VObj (S (List.length (heap w)))))
                  this
                  (heap w ++ [Cell Plain opts;
                              Cell (Widget control) {[ "_$parent" := parent ]}]))
               (taskQueue w)
               (trace w ++ [CallCreateWidget; KendoInit control el opts]).
Proof.
  intros Ha Hrun. rewrite (attached_run a wb) in Hrun by done.
  destruct (createWidget _ _ w) as [[kWidget|e] w'] eqn:Hcreate; [|done].
  destruct (createWidget_ok_inv _ _ _ _ _ _ Hcreate)
    as (Hel & Hparent & options & eventOptions & control & Hopts & Hev & Hcn).
  rewrite (createWidget_run _ _ _ _ _ _ _ Hel Hparent Hopts Hev Hcn) in Hcreate.
  injection Hcreate as <- <-. injection Hrun as <-.
  by exists control, options, eventOptions.
Qed.

End AdapterLifecycleFacts.

(** X4: an adapter on the helper that is attached before it has its
    element or its binding context fails fast: with no element the attach
    throws "element is not set", with an element but no $parent (bind has
    not run) it throws "parentCtx is not set"; either way nothing is
    constructed and the store, the widget handle included, is untouched. *)
Theorem attached_needs_element_and_context `{U : Util}
    (a : adapter) (wb : WidgetBase) (this : loc) (w : world) :
  uses_widget_base a = Some wb ->
  (truthy (read_prop (heap w) (VObj this) "element") = false ->
   attached a this w = (Throw (Error "element is not set"), entered w))
  /\ (truthy (read_prop (heap w) (VObj this) "element") = true ->
      truthy (read_prop (heap w) (VObj this) "$parent") = false ->
      attached a this w = (Throw (Error "parentCtx is not set"), entered w)).
Proof.
  intros Ha. rewrite (attached_run a wb) by done.
  unfold createWidget. run. split.
  - by intros ->.
  - by intros -> ->.
Qed.

Lemma attached_needs_element_and_context_witness :
  (truthy (read_prop (heap tooltip_world) (VObj 1) "element") = false ->
   attached (U := sample_util) (TooltipAdapter tooltip_base) 1 tooltip_world
   = (Throw (Error "element is not set"), entered tooltip_world))
  /\ (truthy (read_prop (heap tooltip_world) (VObj 1) "element") = true ->
      truthy (read_prop (heap tooltip_world) (VObj 1) "$parent") = false ->
      attached (U := sample_util) (TooltipAdapter tooltip_base) 1 tooltip_world
      = (Throw (Error "parentCtx is not set"), entered tooltip_world)).
Proof.
  apply (attached_needs_element_and_context (U := sample_util)
           (TooltipAdapter tooltip_base) tooltip_base 1 tooltip_world).
  reflexivity.
Defined.

(** A tooltip that was constructed but never bound cannot be attached. *)
Example tooltip_attached_before_bind :
  attached (U := sample_util) (TooltipAdapter tooltip_base) 1 tooltip_world
  = (Throw (Error "parentCtx is not set"), entered tooltip_world).
Proof. vm_compute. reflexivity. Qed.

Lemma count_app (p : effect -> bool) (t t' : list effect) :
  count p (t ++ t') = count p t + count p t'.
Proof. unfold count. by rewrite List.filter_app, length_app. Qed.

(** X5: the binding context handed to bind is the one the widget gets: an
    attach that follows bind(ctx) and returns has found ctx truthy, has
    called the native constructor with _$parent = [ctx] among the options
    (whatever the options literal, the bindables or the event handlers say
    under that key), and has set _$parent = ctx on the new widget. *)
Theorem attached_hands_over_binding_context `{U : Util}
    (a : adapter) (wb : WidgetBase) (this : loc) (ctx : value) (w w2 : world) :
  uses_widget_base a = Some wb ->
  is_Some (heap w !! this) ->
  attached a this (after (bind a this ctx) w) = (Ok tt, w2) ->
  truthy ctx = true /\
  exists control el opts,
    trace w2 = trace w ++ [CallCreateWidget; KendoInit control el opts] /\
    opts !! "_$parent" = Some (VArr [ctx]) /\
    heap w2 !! S (List.length (heap w))
    = Some (Cell (Widget control) {[ "_$parent" := ctx ]}).
Proof.
  intros Ha Hthis Hrun.
  assert (Hbind : after (bind a this ctx) w
                  = World (update_props (insert "$parent" ctx) this (heap w))
                          (taskQueue w) (trace w)).
  { by destruct a. }
  rewrite Hbind in Hrun.
  destruct (attached_ok_world a wb this _ w2 Ha Hrun)
    as (control & options & eventOptions & Hel & Hparent & ->).
  simpl in *.
  rewrite read_prop_update_same in Hparent |- * by done.
  split; [done|].
  eexists control, _, _. split; [done|]. split.
  - unfold all_options. apply lookup_union_Some_l. apply lookup_singleton_eq.
  - pose proof (update_props_same_length (insert "$parent" ctx) this (heap w)) as Hlen.
    rewrite Hlen.
    destruct Hthis as [c Hc].
    assert (Hlt : this < List.length (heap w)) by (by eapply lookup_lt_Some).
    rewrite update_props_other by lia.
    rewrite lookup_app_r by lia. rewrite Hlen.
    by replace (S (List.length (heap w)) - List.length (heap w)) with 1 by lia.
Qed.

(** The sample tree map before bind has run. *)
Example sample_world_is_bound :
  after (bind (TreeMapAdapter sample_base) 2 (VObj 1))
        (World (update_props (delete "$parent") 2 (heap sample_world)) [] [])
  = sample_world.
Proof. vm_compute. reflexivity. Qed.

Lemma attached_hands_over_binding_context_witness :
  truthy (VObj 1) = true /\
  exists control el opts,
    trace attached_world
    = trace sample_world ++ [CallCreateWidget; KendoInit control el opts] /\
    opts !! "_$parent" = Some (VArr [VObj 1]) /\
    heap attached_world !! S (List.length (heap sample_world))
    = Some (Cell (Widget control) {[ "_$parent" := VObj 1 ]}).
Proof.
  apply (attached_hands_over_binding_context (U := sample_util)
           (TreeMapAdapter sample_base) sample_base 2 (VObj 1)
           (World (update_props (delete "$parent") 2 (heap sample_world)) [] [])
           attached_world).
  - reflexivity.
  - vm_compute. by eexists.
  - vm_compute. reflexivity.
Defined.

(** X6: recreate does not dispose of the widget it replaces.  When an
    attach (which is recreate) has returned and recreate returns again, a
    second native widget has been constructed and none destroyed; the first
    widget is still in the store, the handle now holds the second, and a
    detach destroys the second only. *)
Theorem recreate_keeps_first_widget `{U : Util}
    (a : adapter) (wb : WidgetBase) (this : loc) (w w1 w2 : world) :
  uses_widget_base a = Some wb ->
  is_Some (heap w !! this) ->
  attached a this w = (Ok tt, w1) ->
  attached a this w1 = (Ok tt, w2) ->
  List.length (heap w1) = List.length (heap w) + 2 /\
  count is_construction (trace w2) = count is_construction (trace w) + 2 /\
  count is_destruction (trace w2) = count is_destruction (trace w) /\
  (exists control props,
     heap w2 !! S (List.length (heap w)) = Some (Cell (Widget control) props)) /\
  read_prop (heap w2) (VObj this) "kWidget" = VObj (S (List.length (heap w1))) /\
  detached a this w2
  = (Ok tt, World (heap w2) (taskQueue w2)
                  (trace w2 ++ [KendoDestroy (S (List.length (heap w1)))])).
Proof.
  intros Ha Hthis Hrun1 Hrun2.
  pose proof (lookup_lt_is_Some_1 _ _ Hthis) as Hlt.
  destruct (attached_stores_widget a wb this w w1 Ha Hthis Hrun1)
    as (control1 & opts1 & Htrace1 & _ & Hfirst).
  assert (Hlen1 : List.length (heap w1) = List.length (heap w) + 2).
  { destruct (attached_ok_world a wb this w w1 Ha Hrun1)
      as (c & o & e & _ & _ & ->). simpl.
    rewrite update_props_same_length, length_app. simpl. lia. }
  assert (Hthis1 : is_Some (heap w1 !! this)).
  { apply lookup_lt_is_Some_2. lia. }
  destruct (attached_stores_widget a wb this w1 w2 Ha Hthis1 Hrun2)
    as (control2 & opts2 & Htrace2 & Hread2 & Hsecond).
  split; [done|]. split; [|split; [|split; [|split]]].
  - rewrite Htrace2, Htrace1, !count_app. unfold count. simpl. lia.
  - rewrite Htrace2, Htrace1, !count_app. unfold count. simpl. lia.
  - destruct (attached_ok_world a wb this w1 w2 Ha Hrun2)
      as (c & o & e & _ & _ & ->). simpl.
    exists control1, {[ "_$parent" := read_prop (heap w) (VObj this) "$parent" ]}.
    rewrite update_props_other by lia.
    by apply lookup_app_l_Some.
  - done.
  - rewrite detached_run.
    destruct a; try discriminate Ha;
      rewrite Hread2; by eapply call_destroy_widget.
Qed.

Lemma recreate_keeps_first_widget_witness :
  List.length (heap attached_world) = List.length (heap sample_world) + 2 /\
  count is_construction
    (trace (after (attached (U := sample_util) (TreeMapAdapter sample_base) 2) attached_world))
  = count is_construction (trace sample_world) + 2 /\
  count is_destruction
    (trace (after (attached (U := sample_util) (TreeMapAdapter sample_base) 2) attached_world))
  = count is_destruction (trace sample_world) /\
  (exists control props,
     heap (after (attached (U := sample_util) (TreeMapAdapter sample_base) 2) attached_world)
       !! S (List.length (heap sample_world)) = Some (Cell (Widget control) props)) /\
  read_prop
    (heap (after (attached (U := sample_util) (TreeMapAdapter sample_base) 2) attached_world))
    (VObj 2) "kWidget" = VObj (S (List.length (heap attached_world))) /\
  detached (TreeMapAdapter sample_base) 2
    (after (attached (U := sample_util) (TreeMapAdapter sample_base) 2) attached_world)
  = (Ok tt,
     World (heap (after (attached (U := sample_util) (TreeMapAdapter sample_base) 2) attached_world))
           (taskQueue (after (attached (U := sample_util) (TreeMapAdapter sample_base) 2) attached_world))
           (trace (after (attached (U := sample_util) (TreeMapAdapter sample_base) 2) attached_world)
              ++ [KendoDestroy (S (List.length (heap attached_world)))])).
Proof.
  apply (recreate_keeps_first_widget (U := sample_util)
           (TreeMapAdapter sample_base) sample_base 2 sample_world attached_world).
  - reflexivity.
  - vm_compute. by eexists.
  - vm_compute. reflexivity.
  - vm_compute. reflexivity.
Defined.

(** X7: detach does not clear the widget handle: on an adapter whose
    handle holds a native widget, a second detach finds the same widget
    there and destroys it again. *)
Theorem detached_twice_destroys_twice
    (a : adapter) (this widget : loc) (control : string) (props : object) (w : world) :
  read_prop (heap w) (VObj this) (widget_handle a) = VObj widget ->
  heap w !! widget = Some (Cell (Widget control) props) ->
  (detached a this;; detached a this) w
  = (Ok tt, World (heap w) (taskQueue w)
                  (trace w ++ [KendoDestroy widget; KendoDestroy widget])) /\
  read_prop (heap (after (detached a this) w)) (VObj this) (widget_handle a) = VObj widget.
Proof.
  intros Hread Hwidget.
  assert (Hone : forall w', heap w' = heap w ->
    detached a this w'
    = (Ok tt, World (heap w') (taskQueue w') (trace w' ++ [KendoDestroy widget]))).
  { intros w' Hheap. rewrite detached_run, Hheap.
    assert (Hw : heap w' !! widget = Some (Cell (Widget control) props)) by (by rewrite Hheap).
    destruct a; simpl in Hread; rewrite Hread; simpl;
      rewrite <- Hheap; by apply (call_destroy_widget widget control props). }
  split.
  - unfold mbind, M_bind. cbv beta. rewrite (Hone w eq_refl).
    rewrite (Hone (World (heap w) (taskQueue w) (trace w ++ [KendoDestroy widget])) eq_refl).
    simpl. by rewrite <- (assoc_L (++)).
  - unfold after. by rewrite (Hone w eq_refl).
Qed.

Lemma detached_twice_destroys_twice_witness :
  (detached (TreeMapAdapter sample_base) 2;; detached (TreeMapAdapter sample_base) 2)
    attached_world
  = (Ok tt, World (heap attached_world) (taskQueue attached_world)
                  (trace attached_world ++ [KendoDestroy 5; KendoDestroy 5])) /\
  read_prop (heap (after (detached (TreeMapAdapter sample_base) 2) attached_world))
            (VObj 2) (widget_handle (TreeMapAdapter sample_base)) = VObj 5.
Proof.
  apply (detached_twice_destroys_twice (TreeMapAdapter sample_base) 2 5 "kendoTreeMap"
           {[ "_$parent" := VObj 1 ]} attached_world).
  - vm_compute. reflexivity.
  - vm_compute. reflexivity.
Defined.

(** ** setDefaultBindableValues *)

Section DefaultsFacts.
Context `{U : Util}.

(** The writes of setDefaultBindableValues, on the view model's cell. *)
Lemma write_defaults_run (this : WidgetBase) (vm : loc) (kvs : list (string * value))
    (w : world) :
  foldr (fun kv rest => set_prop (VObj vm) (getBindablePropertyName kv.1) kv.2;; rest)
        (mret this) kvs w
  = (Ok this,
     World (foldl (fun h kv => update_props (insert (getBindablePropertyName kv.1) kv.2) vm h)
                  (heap w) kvs)
           (taskQueue w) (trace w)).
Proof.
  revert w. induction kvs as [|kv kvs IH]; intros w; simpl; [by destruct w|].
  unfold mbind, M_bind, set_prop. cbv beta. by rewrite IH.
Qed.

Lemma write_defaults_other (vm r : loc) (kvs : list (string * value)) (h : list cell) :
  r <> vm ->
  foldl (fun h kv => update_props (insert (getBindablePropertyName kv.1) kv.2) vm h) h kvs !! r
  = h !! r.
Proof.
  intros Hne. revert h. induction kvs as [|kv kvs IH]; intros h; simpl; [done|].
  rewrite IH. by apply update_props_other.
Qed.

Lemma write_defaults_cell (vm : loc) (kvs : list (string * value)) (h : list cell) (c : cell) :
  h !! vm = Some c ->
  foldl (fun h kv => update_props (insert (getBindablePropertyName kv.1) kv.2) vm h) h kvs !! vm
  = Some (Cell (cell_kind c)
               (foldl (fun o kv => <[getBindablePropertyName kv.1 := kv.2]> o)
                      (cell_props c) kvs)).
Proof.
  revert h c. induction kvs as [|kv kvs IH]; intros h c Hc; simpl; [by destruct c|].
  rewrite (IH _ (Cell (cell_kind c)
                      (<[getBindablePropertyName kv.1 := kv.2]> (cell_props c)))); [done|].
  unfold update_props. rewrite Hc.
  apply list_lookup_insert_eq. by eapply lookup_lt_Some.
Qed.

Lemma write_defaults_length (vm : loc) (kvs : list (string * value)) (h : list cell) :
  List.length
    (foldl (fun h kv => update_props (insert (getBindablePropertyName kv.1) kv.2) vm h) h kvs)
  = List.length h.
Proof.
  revert h. induction kvs as [|kv kvs IH]; intros h; simpl; [done|].
  by rewrite IH, update_props_same_length.
Qed.

Lemma defaults_lookup_notin (kvs : list (string * value)) (init : object) (key : string) :
  key ∉ (getBindablePropertyName <$> kvs.*1) ->
  foldl (fun o kv => <[getBindablePropertyName kv.1 := kv.2]> o) init kvs !! key = init !! key.
Proof.
  revert init. induction kvs as [|kv kvs IH]; intros init Hnot; simpl; [done|].
  simpl in Hnot. rewrite IH by (intros Hin; apply Hnot; by right).
  apply lookup_insert_ne. intros Heq. apply Hnot. rewrite Heq. by left.
Qed.

Lemma defaults_lookup_in (kvs : list (string * value)) (init : object) (k : string) (v : value) :
  NoDup (getBindablePropertyName <$> kvs.*1) ->
  (k, v) ∈ kvs ->
  foldl (fun o kv => <[getBindablePropertyName kv.1 := kv.2]> o) init kvs
    !! getBindablePropertyName k = Some v.
Proof.
  revert init. induction kvs as [|kv kvs IH]; intros init Hnd Hin; simpl.
  - by apply elem_of_nil in Hin.
  - simpl in Hnd. apply NoDup_cons in Hnd as [Hfresh Hnd].
    apply elem_of_cons in Hin as [<-|Hin].
    + rewrite defaults_lookup_notin by done. apply lookup_insert_eq.
    + by apply IH.
Qed.

Lemma names_distinct_NoDup (props : object) :
  names_distinct props ->
  NoDup (getBindablePropertyName <$> (map_to_list props).*1).
Proof.
  intros Hdistinct. apply NoDup_fmap_2_strong.
  - intros p q Hp Hq. apply Hdistinct; by apply Object_keys_dom.
  - apply NoDup_fst_map_to_list.
Qed.

(** What setDefaultBindableValues leaves on a view model of the store. *)
Lemma setDefaultBindableValues_ok (this : WidgetBase) (w : world) (props : object) (vm : loc) :
  kendoOptions this = Some props ->
  viewModel this = VObj vm ->
  is_Some (heap w !! vm) ->
  names_distinct props ->
  exists h',
    setDefaultBindableValues this w = (Ok this, World h' (taskQueue w) (trace w)) /\
    List.length h' = List.length (heap w) /\
    (forall prop v, props !! prop = Some v ->
       read_prop h' (VObj vm) (getBindablePropertyName prop) = v) /\
    (forall key, not_a_bindable props key ->
       read_prop h' (VObj vm) key = read_prop (heap w) (VObj vm) key) /\
    (forall r, r <> vm -> h' !! r = heap w !! r).
Proof.
  intros Hprops Hvm [c Hc] Hdistinct.
  unfold setDefaultBindableValues. rewrite Hprops, Hvm. simpl.
  rewrite write_defaults_run.
  eexists. split; [done|]. split; [apply write_defaults_length|]. split; [|split].
  - intros prop v Hv. unfold read_prop, own_props, props_at.
    rewrite (write_defaults_cell vm _ _ c Hc). simpl.
    rewrite (defaults_lookup_in _ _ prop v); [done | by apply names_distinct_NoDup |].
    by apply elem_of_map_to_list.
  - intros key Hkey. unfold read_prop, own_props, props_at.
    rewrite (write_defaults_cell vm _ _ c Hc), Hc. simpl.
    rewrite defaults_lookup_notin; [done|].
    intros (prop & -> & Hin)%list_elem_of_fmap.
    apply (Hkey prop); [by apply Object_keys_dom | done].
  - intros r Hr. by apply write_defaults_other.
Qed.

End DefaultsFacts.

(** X1: setDefaultBindableValues, on a helper with its control and a view
    model of the store, returns the helper and leaves every bindable
    holding the control's default for its option, provided no two options
    share a bindable name; every other property of the view model, every
    other object, the task queue and the trace are as before. *)
Theorem setDefaultBindableValues_sets_defaults `{U : Util}
    (this : WidgetBase) (w : world) (props : object) (vm : loc) :
  kendoOptions this = Some props ->
  viewModel this = VObj vm ->
  is_Some (heap w !! vm) ->
  names_distinct props ->
  outcome (setDefaultBindableValues this) w = Ok this /\
  trace (after (setDefaultBindableValues this) w) = trace w /\
  taskQueue (after (setDefaultBindableValues this) w) = taskQueue w /\
  (forall prop v, props !! prop = Some v ->
     read_prop (heap (after (setDefaultBindableValues this) w)) (VObj vm)
               (getBindablePropertyName prop) = v) /\
  (forall key, not_a_bindable props key ->
     read_prop (heap (after (setDefaultBindableValues this) w)) (VObj vm) key
     = read_prop (heap w) (VObj vm) key) /\
  (forall r, r <> vm ->
     heap (after (setDefaultBindableValues this) w) !! r = heap w !! r).
Proof.
  intros Hprops Hvm Hc Hdistinct.
  destruct (setDefaultBindableValues_ok this w props vm Hprops Hvm Hc Hdistinct)
    as (h' & Hrun & _ & Hset & Hkept & Hother).
  unfold outcome, after. rewrite Hrun. simpl. by repeat split.
Qed.

(** X2: defaults set, then collected, are the defaults: right after
    setDefaultBindableValues, getOptionsFromBindables returns the control's
    option defaults themselves, with dataSource replaced by kDataSource
    when that is truthy. *)
Theorem defaults_round_trip `{U : Util}
    (this : WidgetBase) (w : world) (props : object) (vm : loc) :
  kendoOptions this = Some props ->
  viewModel this = VObj vm ->
  is_Some (heap w !! vm) ->
  names_distinct props ->
  (setDefaultBindableValues this;; getOptionsFromBindables this) w
  = (Ok (let kDataSource :=
           read_prop (heap (after (setDefaultBindableValues this) w)) (VObj vm) "kDataSource" in
         if truthy kDataSource then <["dataSource" := kDataSource]> props else props),
     after (setDefaultBindableValues this) w).
Proof.
  intros Hprops Hvm Hc Hdistinct.
  destruct (setDefaultBindableValues_ok this w props vm Hprops Hvm Hc Hdistinct)
    as (h' & Hrun & _ & Hset & _ & _).
  unfold mbind, M_bind, after. cbv beta. rewrite Hrun. simpl.
  rewrite getOptionsFromBindables_run, Hprops, Hvm. simpl.
  f_equal. f_equal. unfold bindables.
  assert (Hsame : foldl (fun options prop =>
                           <[prop := read_prop h' (VObj vm) (getBindablePropertyName prop)]> options)
                        ∅ (Object_keys props) = props).
  { apply map_eq. intros k.
    rewrite (collect_lookup (fun p => read_prop h' (VObj vm) (getBindablePropertyName p))).
    destruct (decide (k ∈ Object_keys props)) as [Hin|Hnin].
    - apply Object_keys_dom in Hin as [v Hv]. by rewrite (Hset k v Hv).
    - rewrite lookup_empty. symmetry. apply eq_None_not_Some.
      by rewrite <- Object_keys_dom. }
  by rewrite Hsame.
Qed.

(** The sample naming keeps the tree map's options apart. *)
Lemma sample_names_distinct :
  names_distinct (U := sample_util)
    {[ "name" := VStr "TreeMap"; "textField" := VStr "text";
       "valueField" := VStr "value"; "autoBind" := VBool true ]}.
Proof.
  intros p q Hp%Object_keys_dom Hq%Object_keys_dom Heq.
  vm_compute in Hp, Hq.
  repeat (apply elem_of_cons in Hp as [->|Hp]);
    try (by apply elem_of_nil in Hp);
    repeat (apply elem_of_cons in Hq as [->|Hq]);
    try (by apply elem_of_nil in Hq);
    first [reflexivity | by vm_compute in Heq].
Qed.

Lemma setDefaultBindableValues_sets_defaults_witness :
  outcome (setDefaultBindableValues (U := sample_util) sample_base) sample_world
  = Ok sample_base /\
  read_prop (heap (after (setDefaultBindableValues (U := sample_util) sample_base) sample_world))
            (VObj 2) "kTextField" = VStr "text" /\
  read_prop (heap (after (setDefaultBindableValues (U := sample_util) sample_base) sample_world))
            (VObj 2) "options" = VObj 3.
Proof.
  destruct (setDefaultBindableValues_sets_defaults (U := sample_util)
              sample_base sample_world _ 2 eq_refl eq_refl
              (ex_intro _ _ eq_refl) sample_names_distinct)
    as (Hok & _ & _ & Hset & Hkept & _).
  split; [exact Hok|]. split.
  - apply (Hset "textField"). reflexivity.
  - rewrite (Hkept "options"); [reflexivity|].
    intros prop Hprop%Object_keys_dom. vm_compute in Hprop.
    repeat (apply elem_of_cons in Hprop as [->|Hprop]);
      try (by apply elem_of_nil in Hprop); by vm_compute.
Defined.

Lemma defaults_round_trip_witness :
  (setDefaultBindableValues (U := sample_util) sample_base;;
   getOptionsFromBindables (U := sample_util) sample_base) sample_world
  = (Ok (let kDataSource :=
           read_prop (heap (after (setDefaultBindableValues (U := sample_util) sample_base)
                                  sample_world)) (VObj 2) "kDataSource" in
         if truthy kDataSource
         then <["dataSource" := kDataSource]>
                ({[ "name" := VStr "TreeMap"; "textField" := VStr "text";
                    "valueField" := VStr "value"; "autoBind" := VBool true ]} : object)
         else {[ "name" := VStr "TreeMap"; "textField" := VStr "text";
                 "valueField" := VStr "value"; "autoBind" := VBool true ]}),
     after (setDefaultBindableValues (U := sample_util) sample_base) sample_world).
Proof.
  apply (defaults_round_trip (U := sample_util) sample_base sample_world _ 2
           eq_refl eq_refl (ex_intro _ _ eq_refl) sample_names_distinct).
Defined.

(** On the sample: the defaults come back as they were registered. *)
Example sample_defaults_round_trip :
  outcome (setDefaultBindableValues (U := sample_util) sample_base;;
           getOptionsFromBindables (U := sample_util) sample_base) sample_world
  = Ok {[ "name" := VStr "TreeMap"; "textField" := VStr "text";
          "valueField" := VStr "value"; "autoBind" := VBool true ]}.
Proof. vm_compute. reflexivity. Qed.

(** ** The constructors *)

Lemma update_props_at_app (f : object -> object) (h rest : list cell) (c : cell) :
  update_props f (List.length h) (h ++ c :: rest)
  = h ++ Cell (cell_kind c) (f (cell_props c)) :: rest.
Proof.
  unfold update_props.
  rewrite lookup_app_r by lia. rewrite Nat.sub_diag. simpl.
  rewrite insert_app_r_alt by lia. by rewrite Nat.sub_diag.
Qed.

Lemma read_prop_at_app (h rest : list cell) (c : cell) (key : string) :
  read_prop (h ++ c :: rest) (VObj (List.length h)) key
  = default VUndefined (cell_props c !! key).
Proof.
  unfold read_prop, own_props, props_at.
  rewrite lookup_app_r by lia. by rewrite Nat.sub_diag.
Qed.

Section ConstructorFacts.
Context `{U : Util}.

Lemma treemap_constructor_run (jQuery_fn : gmap string widget_prototype)
    (el helper : value) (w : world) :
  TreeMap.constructor jQuery_fn el helper new_WidgetBase w =
  match jQuery_fn !! "kendoTreeMap" with
  | None =>
      (Throw (Error "The name of control kendoTreeMap is invalid or not set"),
       treemap_instance el w)
  | Some widget =>
      match setDefaultBindableValues
              (mkWidgetBase (Some "kendoTreeMap") (Some (proto_options widget))
                            (Some (proto_events widget)) (VObj (List.length (heap w))))
              (treemap_instance el w) with
      | (Ok wb, w') =>
          (Ok (List.length (heap w), wb),
           World (update_props (insert "widgetBase" helper) (List.length (heap w)) (heap w'))
                 (taskQueue w') (trace w'))
      | (Throw e, w') => (Throw e, w')
      end
  end.
Proof.
  unfold TreeMap.constructor, control. run.
  rewrite length_app. simpl.
  replace (List.length (heap w) + 1) with (S (List.length (heap w))) by lia.
  rewrite <- (assoc_L (++)). simpl.
  rewrite update_props_at_app. simpl.
  rewrite update_props_at_app. simpl.
  rewrite insert_empty.
  fold (treemap_instance el w).
  destruct (jQuery_fn !! "kendoTreeMap") as [widget|]; [|done].
  simpl.
  by destruct (setDefaultBindableValues _ (treemap_instance el w)) as [[wb|e] w'].
Qed.

End ConstructorFacts.

(** X8: the TreeMap constructor.  When kendoTreeMap is not registered with
    jQuery the constructor throws, naming the control, and has touched no
    object that existed before.  When it is registered, no two options
    share a bindable name and none is bound under "options" or "element",
    the constructor returns the instance and a helper configured for
    kendoTreeMap with the instance as its view model; the instance holds
    its element, a new empty options object, the reference to the helper
    under widgetBase, and in every bindable the control's default, except
    in a bindable named widgetBase, where the helper has replaced it;
    every object that existed before is as it was, and nothing has been
    constructed or queued. *)
Theorem treemap_constructor `{U : Util}
    (jQuery_fn : gmap string widget_prototype) (el helper : value) (w : world) :
  (jQuery_fn !! "kendoTreeMap" = None ->
   outcome (TreeMap.constructor jQuery_fn el helper new_WidgetBase) w
   = Throw (Error "The name of control kendoTreeMap is invalid or not set") /\
   trace (after (TreeMap.constructor jQuery_fn el helper new_WidgetBase) w) = trace w /\
   forall r c, heap w !! r = Some c ->
     heap (after (TreeMap.constructor jQuery_fn el helper new_WidgetBase) w) !! r = Some c)
  /\ (forall widget,
      jQuery_fn !! "kendoTreeMap" = Some widget ->
      names_distinct (proto_options widget) ->
      not_a_bindable (proto_options widget) "options" ->
      not_a_bindable (proto_options widget) "element" ->
      outcome (TreeMap.constructor jQuery_fn el helper new_WidgetBase) w
      = Ok (List.length (heap w),
            mkWidgetBase (Some "kendoTreeMap") (Some (proto_options widget))
                         (Some (proto_events widget)) (VObj (List.length (heap w)))) /\
      read_prop (heap (after (TreeMap.constructor jQuery_fn el helper new_WidgetBase) w))
                (VObj (List.length (heap w))) "element" = el /\
      read_prop (heap (after (TreeMap.constructor jQuery_fn el helper new_WidgetBase) w))
                (VObj (List.length (heap w))) "options" = VObj (S (List.length (heap w))) /\
      read_prop (heap (after (TreeMap.constructor jQuery_fn el helper new_WidgetBase) w))
                (VObj (List.length (heap w))) "widgetBase" = helper /\
      props_at (heap (after (TreeMap.constructor jQuery_fn el helper new_WidgetBase) w))
               (S (List.length (heap w))) = ∅ /\
      (forall prop v, proto_options widget !! prop = Some v ->
         read_prop (heap (after (TreeMap.constructor jQuery_fn el helper new_WidgetBase) w))
                   (VObj (List.length (heap w))) (getBindablePropertyName prop)
         = if decide (getBindablePropertyName prop = "widgetBase") then helper else v) /\
      (forall r c, heap w !! r = Some c ->
         heap (after (TreeMap.constructor jQuery_fn el helper new_WidgetBase) w) !! r = Some c) /\
      trace (after (TreeMap.constructor jQuery_fn el helper new_WidgetBase) w) = trace w /\
      taskQueue (after (TreeMap.constructor jQuery_fn el helper new_WidgetBase) w) = taskQueue w).
Proof.
  unfold outcome, after. rewrite treemap_constructor_run. split.
  - intros ->. simpl. repeat split. intros r c Hr. by apply lookup_app_l_Some.
  - intros widget -> Hdistinct Hoptions Helement.
    set (this := List.length (heap w)).
    set (wb := mkWidgetBase _ _ _ _).
    assert (Hthis : is_Some (heap (treemap_instance el w) !! this)).
    { simpl. apply lookup_lt_is_Some. rewrite length_app. simpl. lia. }
    destruct (setDefaultBindableValues_ok wb (treemap_instance el w) (proto_options widget)
                this eq_refl eq_refl Hthis Hdistinct)
      as (h' & -> & Hlen & Hset & Hkept & Hother).
    assert (Hthis' : is_Some (h' !! this)).
    { apply lookup_lt_is_Some. rewrite Hlen. by apply lookup_lt_is_Some. }
    cbn [fst snd heap trace taskQueue].
    split; [done|]. split; [|split; [|split; [|split; [|split; [|split; [|split]]]]]].
    + rewrite read_prop_update_other by done.
      rewrite (Hkept "element" Helement). unfold this, treemap_instance. cbn [heap].
      rewrite read_prop_at_app. simpl. by rewrite lookup_insert_eq.
    + rewrite read_prop_update_other by done.
      rewrite (Hkept "options" Hoptions). unfold this, treemap_instance. cbn [heap].
      rewrite read_prop_at_app. simpl.
      rewrite lookup_insert_ne by done. by rewrite lookup_singleton_eq.
    + by apply read_prop_update_same.
    + unfold props_at. rewrite update_props_other by (unfold this; lia).
      rewrite Hother by (unfold this; lia).
      unfold treemap_instance, this. cbn [heap].
      rewrite lookup_app_r by lia.
      by replace (S (List.length (heap w)) - List.length (heap w)) with 1 by lia.
    + intros prop v Hv.
      destruct (decide (getBindablePropertyName prop = "widgetBase")) as [->|Hne].
      * by apply read_prop_update_same.
      * rewrite read_prop_update_other by done. by apply Hset.
    + intros r c Hr.
      assert (r < this) by (by eapply lookup_lt_Some).
      rewrite update_props_other by lia.
      rewrite Hother by lia. by apply lookup_app_l_Some.
    + done.
    + done.
Qed.

Lemma treemap_constructor_witness :
  outcome (TreeMap.constructor (U := sample_util) sample_jQuery_fn (VObj 0) (VObj 1)
             new_WidgetBase)
          (World [Cell (Element ["on-data-bound"; "class"]) ∅; Cell Plain ∅] [] [])
  = Ok (2, sample_base) /\
  read_prop
    (heap (after (TreeMap.constructor (U := sample_util) sample_jQuery_fn (VObj 0) (VObj 1)
                    new_WidgetBase)
                 (World [Cell (Element ["on-data-bound"; "class"]) ∅; Cell Plain ∅] [] [])))
    (VObj 2) "kTextField" = VStr "text" /\
  read_prop
    (heap (after (TreeMap.constructor (U := sample_util) sample_jQuery_fn (VObj 0) (VObj 1)
                    new_WidgetBase)
                 (World [Cell (Element ["on-data-bound"; "class"]) ∅; Cell Plain ∅] [] [])))
    (VObj 2) "widgetBase" = VObj 1.
Proof.
  destruct (proj2 (treemap_constructor (U := sample_util) sample_jQuery_fn (VObj 0) (VObj 1)
                     (World [Cell (Element ["on-data-bound"; "class"]) ∅; Cell Plain ∅] [] []))
              (WidgetPrototype
                 {[ "name" := VStr "TreeMap"; "textField" := VStr "text";
                    "valueField" := VStr "value"; "autoBind" := VBool true ]}
                 ["dataBound"; "itemCreated"]))
    as (Hok & _ & _ & Hhelper & _ & Hset & _).
  - vm_compute. reflexivity.
  - exact sample_names_distinct.
  - intros prop Hprop%Object_keys_dom. vm_compute in Hprop.
    repeat (apply elem_of_cons in Hprop as [->|Hprop]);
      try (by apply elem_of_nil in Hprop); by vm_compute.
  - intros prop Hprop%Object_keys_dom. vm_compute in Hprop.
    repeat (apply elem_of_cons in Hprop as [->|Hprop]);
      try (by apply elem_of_nil in Hprop); by vm_compute.
  - split; [exact Hok|]. split; [|exact Hhelper].
    apply (Hset "textField"). reflexivity.
Defined.

(** A naming that binds the option helper under widgetBase: the bindable
    ends up holding the helper, not the option's default. *)
Example treemap_constructor_helper_wins :
  let naming : Util := {|
    getBindablePropertyName prop :=
      if String.eqb prop "helper" then "widgetBase" else "k" +:+ capitalize prop;
    getEventsFromAttributes_names attributes := omap event_of_attribute attributes |} in
  let registry : gmap string widget_prototype :=
    {[ "kendoTreeMap" := WidgetPrototype {[ "helper" := VStr "default" ]} [] ]} in
  read_prop
    (heap (after (TreeMap.constructor (U := naming) registry (VObj 0) (VObj 1) new_WidgetBase)
                 (World [Cell (Element []) ∅; Cell Plain ∅] [] [])))
    (VObj 2) "widgetBase" = VObj 1.
Proof. vm_compute. reflexivity. Qed.

(** ** A tooltip from construction to detach *)

Lemma attributes_of_app (h rest : list cell) (el : value) (attributes : list string) :
  attributes_of h el = Some attributes ->
  attributes_of (h ++ rest) el = Some attributes.
Proof.
  unfold attributes_of. destruct el as [| | | | |r| |]; try done.
  destruct (h !! r) as [c|] eqn:Hr; [|done].
  by rewrite (lookup_app_l_Some _ _ _ _ Hr).
Qed.

Lemma attributes_of_truthy (h : list cell) (el : value) (attributes : list string) :
  attributes_of h el = Some attributes -> truthy el = true.
Proof. by destruct el. Qed.

(** X9: a tooltip on a DOM element, with kendoTooltip registered, every
    event the element asks for in its vocabulary and a truthy binding
    context, goes through construction, bind, attach and detach without an
    error; the toolkit sees exactly one construction, on that element and
    with _$parent = [ctx] among the options, followed by exactly one
    destruction, of the widget constructed; every object that existed
    before is as it was. *)
Theorem tooltip_lifecycle_trace `{U : Util}
    (jQuery_fn : gmap string widget_prototype) (el helper ctx : value) (w : world)
    (widget : widget_prototype) (attributes : list string) :
  jQuery_fn !! "kendoTooltip" = Some widget ->
  attributes_of (heap w) el = Some attributes ->
  Forall (fun event => event ∈ proto_events widget)
         (getEventsFromAttributes_names attributes) ->
  truthy ctx = true ->
  exists opts,
    outcome (tooltip_lifecycle jQuery_fn el helper ctx) w = Ok tt /\
    trace (after (tooltip_lifecycle jQuery_fn el helper ctx) w)
    = trace w ++ [CallCreateWidget; KendoInit "kendoTooltip" el opts;
                  KendoDestroy (S (S (List.length (heap w))))] /\
    opts !! "_$parent" = Some (VArr [ctx]) /\
    (forall r c, heap w !! r = Some c ->
       heap (after (tooltip_lifecycle jQuery_fn el helper ctx) w) !! r = Some c).
Proof.
  intros Hfn Hattr Hall Hctx.
  set (this := List.length (heap w)).
  set (wb := mkWidgetBase (Some "kendoTooltip") (Some (proto_options widget))
                          (Some (proto_events widget)) (VObj this)).
  set (w2 := World (heap w ++ [Cell Plain (<["$parent" := ctx]>
                                             (<["widgetBase" := helper]>
                                                {[ "element" := el ]}))])
                   (taskQueue w) (trace w)).
  assert (Hstart : forall k : WidgetBase -> loc -> M unit,
    (made ← Tooltip.constructor jQuery_fn el helper new_WidgetBase;
     Tooltip.bind made.1 ctx;; k made.2 made.1) w = k wb this w2).
  { intros k. unfold Tooltip.constructor, Tooltip.bind, control. run.
    rewrite Hfn. simpl.
    rewrite update_props_fresh. simpl.
    rewrite update_props_fresh. simpl.
    rewrite update_props_fresh. simpl.
    by rewrite insert_empty. }
  assert (Hel : read_prop (heap w2) (VObj this) "element" = el).
  { unfold w2, this. cbn [heap]. rewrite read_prop_at_app. simpl.
    rewrite !lookup_insert_ne by done. by rewrite lookup_singleton_eq. }
  assert (Hparent : read_prop (heap w2) (VObj this) "$parent" = ctx).
  { unfold w2, this. cbn [heap]. rewrite read_prop_at_app. simpl.
    by rewrite lookup_insert_eq. }
  assert (Hready : ready wb el (heap w2) "kendoTooltip" (proto_options widget)
                     (getEventsFromAttributes_names attributes)).
  { split; [done|]. split; [done|]. split; [done|].
    exists attributes, (proto_events widget).
    split; [by apply attributes_of_app|]. by repeat split. }
  destruct (ready_getOptions wb el w2 _ _ _ Hready) as [Hopts Hev].
  pose proof (createWidget_run wb el ctx w2 _ _ "kendoTooltip"
                (attributes_of_truthy _ _ _ Hattr) Hctx Hopts Hev eq_refl) as Hcreate.
  cbv zeta in Hcreate.
  set (opts := all_options ctx (literal_options wb (heap w2))
                 (bindables (proto_options widget) (heap w2) (viewModel wb))
                 (proxies el (getEventsFromAttributes_names attributes) ∅)) in *.
  assert (Hlen2 : List.length (heap w2) = S this).
  { unfold w2, this. cbn [heap]. rewrite length_app. simpl. lia. }
  set (w3 := World (update_props (insert "kWidget" (VObj (S (S this)))) this
                      (heap w2 ++ [Cell Plain opts;
                                   Cell (Widget "kendoTooltip") {[ "_$parent" := ctx ]}]))
                   (taskQueue w) (trace w ++ [CallCreateWidget;
                                              KendoInit "kendoTooltip" el opts])).
  assert (Hattached : attached (TooltipAdapter wb) this w2 = (Ok tt, w3)).
  { rewrite (attached_run _ wb) by done. rewrite Hel, Hparent, Hcreate.
    by rewrite Hlen2. }
  assert (Hthis3 : is_Some ((heap w2 ++ [Cell Plain opts;
                     Cell (Widget "kendoTooltip") {[ "_$parent" := ctx ]}]) !! this)).
  { apply lookup_lt_is_Some. rewrite length_app. lia. }
  assert (Hdetached : detached (TooltipAdapter wb) this w3
                      = (Ok tt, World (heap w3) (taskQueue w3)
                                      (trace w3 ++ [KendoDestroy (S (S this))]))).
  { rewrite detached_run. unfold w3 at 1 2. cbn [heap].
    rewrite read_prop_update_same by done.
    apply (call_destroy_widget _ "kendoTooltip" {[ "_$parent" := ctx ]}).
    unfold w3. cbn [heap].
    rewrite update_props_other by lia.
    rewrite lookup_app_r by lia. rewrite Hlen2.
    by replace (S (S this) - S this) with 1 by lia. }
  exists opts. unfold outcome, after, tooltip_lifecycle.
  rewrite (Hstart (fun made2 made1 =>
             Tooltip.attached made2 made1;; Tooltip.detached made2 made1)).
  change (Tooltip.attached wb this) with (attached (TooltipAdapter wb) this).
  change (Tooltip.detached wb this) with (detached (TooltipAdapter wb) this).
  unfold mbind, M_bind. cbv beta. rewrite Hattached, Hdetached. cbn [fst snd].
  split; [done|]. split; [|split].
  - unfold w3. cbn [trace]. by rewrite <- (assoc_L (++)).
  - unfold opts, all_options. apply lookup_union_Some_l. apply lookup_singleton_eq.
  - intros r c Hr. cbn [heap]. unfold w3. cbn [heap].
    assert (r < this) by (by eapply lookup_lt_Some).
    rewrite update_props_other by lia.
    apply lookup_app_l_Some. unfold w2. cbn [heap]. by apply lookup_app_l_Some.
Qed.

Lemma tooltip_lifecycle_trace_witness :
  exists opts,
    outcome (tooltip_lifecycle (U := sample_util) sample_jQuery_fn (VObj 0) (VObj 2) (VObj 1))
            (World [Cell (Element ["title"; "on-show"]) ∅; Cell Plain ∅; Cell Plain ∅] [] [])
    = Ok tt /\
    trace (after (tooltip_lifecycle (U := sample_util) sample_jQuery_fn (VObj 0) (VObj 2) (VObj 1))
                 (World [Cell (Element ["title"; "on-show"]) ∅; Cell Plain ∅; Cell Plain ∅] [] []))
    = [] ++ [CallCreateWidget; KendoInit "kendoTooltip" (VObj 0) opts; KendoDestroy 5] /\
    opts !! "_$parent" = Some (VArr [VObj 1]) /\
    (forall r c,
       [Cell (Element ["title"; "on-show"]) ∅; Cell Plain ∅; Cell Plain ∅] !! r = Some c ->
       heap (after (tooltip_lifecycle (U := sample_util) sample_jQuery_fn (VObj 0) (VObj 2) (VObj 1))
                   (World [Cell (Element ["title"; "on-show"]) ∅; Cell Plain ∅; Cell Plain ∅] [] []))
         !! r = Some c).
Proof.
  apply (tooltip_lifecycle_trace (U := sample_util) sample_jQuery_fn (VObj 0) (VObj 2) (VObj 1)
           (World [Cell (Element ["title"; "on-show"]) ∅; Cell Plain ∅; Cell Plain ∅] [] [])
           (WidgetPrototype
              {[ "name" := VStr "Tooltip"; "position" := VStr "bottom"; "content" := VNull ]}
              ["show"; "hide"; "contentLoad"])
           ["title"; "on-show"]).
  - vm_compute. reflexivity.
  - reflexivity.
  - constructor; [|constructor]. apply list_elem_of_here.
  - reflexivity.
Defined.

(** ** AuToolbar *)

Lemma pruneOptions_empty : pruneOptions ∅ = ∅.
Proof. unfold pruneOptions. apply map_filter_empty. Qed.

Lemma toolbar_getOptions_run (this : loc) (w : world) :
  AuToolbar.getOptions this w
  = (Ok (List.length (heap w)),
     World (heap w ++ [Cell Plain (own_props (heap w)
                                     (read_prop (heap w) (VObj this) "options"))])
           (taskQueue w) (trace w)).
Proof.
  unfold AuToolbar.getOptions. run.
  rewrite update_props_fresh. simpl.
  rewrite pruneOptions_empty, read_prop_snoc_empty, own_props_snoc_empty.
  by rewrite (left_id_L ∅ (∪)), (right_id_L ∅ (∪)).
Qed.

(** X10: AuToolbar.getOptions returns a copy, not the options literal
    itself: a new object holding exactly the entries of this.options (none
    when options is undefined or null); every object that existed before
    is as it was, and a later write to the object returned does not reach
    the literal. *)
Theorem toolbar_getOptions_copies (this : loc) (w : world) :
  outcome (AuToolbar.getOptions this) w = Ok (List.length (heap w)) /\
  props_at (heap (after (AuToolbar.getOptions this) w)) (List.length (heap w))
  = own_props (heap w) (read_prop (heap w) (VObj this) "options") /\
  (forall r c, heap w !! r = Some c ->
     heap (after (AuToolbar.getOptions this) w) !! r = Some c) /\
  (forall key v r c, heap w !! r = Some c ->
     heap (after (AuToolbar.getOptions this;; set_prop (VObj (List.length (heap w))) key v) w)
       !! r = Some c) /\
  trace (after (AuToolbar.getOptions this) w) = trace w.
Proof.
  unfold outcome, after, mbind, M_bind. cbv beta.
  rewrite toolbar_getOptions_run. simpl.
  split; [done|]. split; [apply props_at_snoc|]. split; [|split; [|done]].
  - intros r c Hr. by apply lookup_app_l_Some.
  - intros key v r c Hr.
    assert (r < List.length (heap w)) by (by eapply lookup_lt_Some).
    rewrite update_props_other by lia. by apply lookup_app_l_Some.
Qed.

(** On the sample toolbar with an options literal: the copy has the
    literal's entry, and overwriting it on the copy leaves the literal. *)
Example toolbar_getOptions_sample :
  let copied := after (AuToolbar.getOptions 1) toolbar_with_options in
  let written := after (set_prop (VObj 3) "resizable" (VBool true)) copied in
  outcome (AuToolbar.getOptions 1) toolbar_with_options = Ok 3 /\
  props_at (heap copied) 3 !! "resizable" = Some (VBool false) /\
  props_at (heap written) 3 !! "resizable" = Some (VBool true) /\
  props_at (heap written) 2 !! "resizable" = Some (VBool false).
Proof. vm_compute. done. Qed.

(** X12: no method of AuToolbar ever creates its widget, so a toolbar whose
    _component is unset stays inert: whatever sequence of attached,
    detached, getOptions and enableChanged is run on it, every call
    returns, no call reaches the toolkit or the task queue, _component is
    still unset, and every object that existed before is as it was. *)
Theorem toolbar_never_reaches_toolkit (this : loc) (calls : list toolbar_call) (w : world) :
  is_Some (heap w !! this) ->
  truthy (read_prop (heap w) (VObj this) "_component") = false ->
  outcome (toolbar_run this calls) w = Ok tt /\
  trace (after (toolbar_run this calls) w) = trace w /\
  taskQueue (after (toolbar_run this calls) w) = taskQueue w /\
  truthy (read_prop (heap (after (toolbar_run this calls) w)) (VObj this) "_component")
  = false /\
  (forall r c, heap w !! r = Some c ->
     heap (after (toolbar_run this calls) w) !! r = Some c).
Proof.
  revert w. induction calls as [|call calls IH]; intros w Hthis Hunset.
  - by repeat split.
  - assert (Hstep : exists h',
      toolbar_step this call w = (Ok tt, World (heap w ++ h') (taskQueue w) (trace w))).
    { destruct call; simpl.
      - exists []. rewrite app_nil_r. by destruct w.
      - exists []. rewrite app_nil_r. unfold AuToolbar.detached. run.
        rewrite Hunset. by destruct w.
      - eexists [_]. unfold mbind, M_bind. cbv beta.
        by rewrite toolbar_getOptions_run.
      - exists []. rewrite app_nil_r. unfold AuToolbar.enableChanged. run.
        rewrite Hunset. by destruct w. }
    destruct Hstep as [h' Hstep].
    set (w1 := World (heap w ++ h') (taskQueue w) (trace w)) in *.
    destruct Hthis as [c Hc].
    assert (Hc1 : heap w1 !! this = Some c) by (by apply lookup_app_l_Some).
    assert (Hunset1 : truthy (read_prop (heap w1) (VObj this) "_component") = false).
    { unfold read_prop, own_props, props_at in *. rewrite Hc1. by rewrite Hc in Hunset. }
    destruct (IH w1 (ex_intro _ c Hc1) Hunset1) as (Hok & Htrace & Hqueue & Hstill & Hkept).
    unfold outcome, after in *. simpl.
    unfold mbind, M_bind. cbv beta. rewrite Hstep.
    repeat split; try done.
    intros r c' Hr. apply Hkept. by apply lookup_app_l_Some.
Qed.

Lemma toolbar_never_reaches_toolkit_witness :
  outcome (toolbar_run 1 [CallEnableChanged (VBool false); CallAttached; CallGetOptions;
                          CallEnableChanged (VBool true); CallDetached; CallDetached])
          toolbar_with_options = Ok tt /\
  trace (after (toolbar_run 1 [CallEnableChanged (VBool false); CallAttached; CallGetOptions;
                               CallEnableChanged (VBool true); CallDetached; CallDetached])
               toolbar_with_options) = trace toolbar_with_options /\
  taskQueue (after (toolbar_run 1 [CallEnableChanged (VBool false); CallAttached; CallGetOptions;
                                   CallEnableChanged (VBool true); CallDetached; CallDetached])
                   toolbar_with_options) = taskQueue toolbar_with_options /\
  truthy (read_prop
            (heap (after (toolbar_run 1 [CallEnableChanged (VBool false); CallAttached;
                                         CallGetOptions; CallEnableChanged (VBool true);
                                         CallDetached; CallDetached])
                         toolbar_with_options)) (VObj 1) "_component") = false /\
  (forall r c, heap toolbar_with_options !! r = Some c ->
     heap (after (toolbar_run 1 [CallEnableChanged (VBool false); CallAttached; CallGetOptions;
                                 CallEnableChanged (VBool true); CallDetached; CallDetached])
                 toolbar_with_options) !! r = Some c).
Proof.
  apply (toolbar_never_reaches_toolkit 1).
  - vm_compute. by eexists.
  - vm_compute. reflexivity.
Defined.

(** ** The beforeInitialize hook *)

(** X13: what beforeInitialize leaves on the merged options object is what
    the native constructor receives, except for _$parent, which createWidget
    writes after the hook has run: when the hook returns and the helper is
    ready, the constructor is called with the hook's version of the object
    overlaid with _$parent = [parentCtx], so the hook can add, change or
    remove any other option but can neither replace nor drop _$parent. *)
Theorem beforeInitialize_shapes_options `{U : Util}
    (this : WidgetBase) (el parent : value) (f : value -> M unit) (w w2 : world)
    (control : string) (props : object) (events : list string) :
  truthy el = true -> truthy parent = true ->
  ready this el (heap w) control props events ->
  f (VObj (List.length (heap w))) (after (_getOptions this el) (entered w)) = (Ok tt, w2) ->
  is_Some (heap w2 !! List.length (heap w)) ->
  exists widget w',
    createWidget this (Some (CreateOptions el parent (Some f) None)) w
    = (Ok (VObj widget), w') /\
    trace w' = trace w2
                 ++ [KendoInit control el
                       ({[ "_$parent" := VArr [parent] ]}
                        ∪ props_at (heap w2) (List.length (heap w)))] /\
    props_at (heap w') (List.length (heap w)) !! "_$parent" = Some (VArr [parent]).
Proof.
  intros Hel Hparent Hready Hhook [c Hc].
  pose proof Hready as (Hcn & _).
  destruct (ready_getOptions _ _ (entered w) _ _ _ Hready) as [Hopts Hev].
  unfold after in Hhook. rewrite _getOptions_run, Hopts, Hev in Hhook. simpl in Hhook.
  unfold createWidget, mbind, M_bind, emit. simpl. rewrite Hel, Hparent. simpl.
  rewrite _getOptions_run. fold (entered w). rewrite Hopts, Hev. simpl.
  rewrite Hhook.
  unfold Object_assign, kendo_init. rewrite Hcn.
  unfold mbind, M_bind, mret, M_ret, emit, alloc, set_prop. simpl.
  eexists _, _. split; [done|]. simpl.
  assert (Hlt : List.length (heap w) < List.length (heap w2)) by (by eapply lookup_lt_Some).
  assert (Hprops : props_at (update_props (fun o => {[ "_$parent" := VArr [parent] ]} ∪ o)
                               (List.length (heap w)) (heap w2)) (List.length (heap w))
                   = {[ "_$parent" := VArr [parent] ]} ∪ props_at (heap w2) (List.length (heap w))).
  { unfold props_at, update_props. rewrite Hc.
    by rewrite list_lookup_insert_eq by done. }
  split; [by rewrite Hprops|].
  rewrite update_props_same_length.
  unfold props_at. rewrite update_props_other by lia.
  rewrite lookup_app_l by (rewrite update_props_same_length; lia).
  fold (props_at (update_props (fun o => {[ "_$parent" := VArr [parent] ]} ∪ o)
                   (List.length (heap w)) (heap w2)) (List.length (heap w))).
  rewrite Hprops. apply lookup_union_Some_l. apply lookup_singleton_eq.
Qed.

Lemma beforeInitialize_shapes_options_witness :
  exists widget w',
    createWidget (U := sample_util) sample_base
      (Some (CreateOptions (VObj 0) (VObj 1)
               (Some (fun allOptions => set_prop allOptions "_$parent" VNull)) None))
      sample_world
    = (Ok (VObj widget), w') /\
    trace w'
    = trace (after (set_prop (VObj 4) "_$parent" VNull)
                   (after (_getOptions (U := sample_util) sample_base (VObj 0))
                          (entered sample_world)))
        ++ [KendoInit "kendoTreeMap" (VObj 0)
              ({[ "_$parent" := VArr [VObj 1] ]}
               ∪ props_at (heap (after (set_prop (VObj 4) "_$parent" VNull)
                                  (after (_getOptions (U := sample_util) sample_base (VObj 0))
                                         (entered sample_world))))
                          (List.length (heap sample_world)))] /\
    props_at (heap w') (List.length (heap sample_world)) !! "_$parent"
    = Some (VArr [VObj 1]).
Proof.
  apply (beforeInitialize_shapes_options (U := sample_util) sample_base (VObj 0) (VObj 1)
           (fun allOptions => set_prop allOptions "_$parent" VNull) sample_world _
           "kendoTreeMap"
           {[ "name" := VStr "TreeMap"; "textField" := VStr "text";
              "valueField" := VStr "value"; "autoBind" := VBool true ]}
           ["dataBound"]).
  - reflexivity.
  - reflexivity.
  - split; [reflexivity|]. split; [reflexivity|]. split; [reflexivity|].
    exists ["on-data-bound"; "class"], ["dataBound"; "itemCreated"].
    split; [reflexivity|]. split; [reflexivity|]. split; [reflexivity|].
    constructor; [|constructor]. apply list_elem_of_here.
  - reflexivity.
  - vm_compute. by eexists.
Defined.
